(** * Kick Start Visuals API: a shallow embedding of [main.py] and [schemas.py]

    The store is the three MongoDB collections [user], [project] and
    [message]; a document is its [_id] and a dict of fields.  A handler that
    only reads takes the store; a handler that writes is a computation in
    the monad [M], which threads the store and keeps what was written before
    an exception.  What Python takes from its environment is an argument:
    the current instant ([datetime.now(timezone.utc)]), the [ObjectId] the
    driver generates for an [insert_one], the signing secret, the two
    cryptographic primitives behind [jwt] and [passlib], and [int] on a
    string.  Exceptions are
    the [Raise] branch of [result]; one that is not an [HTTPException] and
    leaves a handler is the framework's 500 answer. *)

From Stdlib Require Import ZArith Ascii String List Permutation.
From stdpp Require Import base option list gmap strings fin_maps sorting.

Local Open Scope string_scope.
Local Open Scope list_scope.
Local Open Scope Z_scope.

(** ** Instants and durations

    A [datetime] is an instant in milliseconds since the epoch and a
    [timedelta] a number of milliseconds: the resolution at which BSON
    stores a date.  The clock of [datetime.now] also counts the
    microseconds below that; they change no outcome here, since the store
    drops them and [jwt] compares whole seconds.  The clock is taken to
    read more than the lifetime of a token before the end of year 9999,
    where adding the lifetime would overflow. *)
Definition datetime := Z.
Definition timedelta := Z.

(** [calendar.timegm(t.utctimetuple())]: the whole seconds of an instant. *)
Definition timegm (t : datetime) : Z := t / 1000.

(** [n <= t.timestamp()] for an integer number of seconds [n]. *)
Definition seconds_leb (n : Z) (t : datetime) : bool := n * 1000 <=? t.

(** ** Exceptions and results *)

Inductive exn : Type :=
  | HTTPException (status_code : Z) (detail : string)
  | ExpiredSignatureError
  | InvalidSignatureError
  | InvalidAlgorithmError
  | DecodeError
  | InvalidIssuedAtError
  | ImmatureSignatureError
  | InvalidAudienceError
  | InvalidId
  | DuplicateKeyError
  | WriteError
  | ValueError (msg : string)
  | UnknownHashError
  | TypeError.

Inductive result (A : Type) : Type :=
  | Return (a : A)
  | Raise (e : exn).
Arguments Return {A} a.
Arguments Raise {A} e.

#[export] Instance result_ret : MRet result := @Return.
#[export] Instance result_bind : MBind result := fun A B f m =>
  match m with
  | Return a => f a
  | Raise e => Raise e
  end.

(** [try: body except handler]: every exception of [body] goes through
    [handler], which raises in its turn. *)
Definition try_except {A} (body : result A) (handler : exn -> exn) : result A :=
  match body with
  | Return a => Return a
  | Raise e => Raise (handler e)
  end.

(** ** bson.ObjectId

    An identifier is kept as [str(oid)] prints it: the lower-case
    hexadecimal digits of its bytes, 24 of them for the 12 bytes of an id
    the driver generates.  [ObjectId(s)] accepts a string of exactly 24
    characters that [bytes.fromhex] parses and raises [InvalidId] on
    anything else; [bytes.fromhex] reads two hexadecimal digits per byte,
    in either case, and skips ASCII whitespace before a byte, so that a
    string with whitespace in it gives an id of fewer than 12 bytes. *)
Record ObjectId_t : Type := Oid { oid_hex : string }.

#[export] Instance ObjectId_eq_dec : EqDecision ObjectId_t.
Proof. solve_decision. Defined.

Definition is_hex_digit (a : ascii) : bool :=
  let n := nat_of_ascii a in
  ((48 <=? n)%nat && (n <=? 57)%nat)
  || ((97 <=? n)%nat && (n <=? 102)%nat)
  || ((65 <=? n)%nat && (n <=? 70)%nat).

Definition lower_ascii (a : ascii) : ascii :=
  let n := nat_of_ascii a in
  if ((65 <=? n)%nat && (n <=? 90)%nat) then ascii_of_nat (n + 32) else a.

Fixpoint string_forallb (f : ascii -> bool) (s : string) : bool :=
  match s with
  | EmptyString => true
  | String a s' => f a && string_forallb f s'
  end.

Fixpoint string_map (f : ascii -> ascii) (s : string) : string :=
  match s with
  | EmptyString => EmptyString
  | String a s' => String (f a) (string_map f s')
  end.

(** ASCII whitespace: space, and tab to carriage return. *)
Definition is_space (a : ascii) : bool :=
  let n := nat_of_ascii a in
  Nat.eqb n 32 || ((9 <=? n)%nat && (n <=? 13)%nat).

(** [bytes.fromhex(s).hex()]: the digits of the bytes of [s], or nothing
    when [bytes.fromhex] raises [ValueError]. *)
Fixpoint fromhex (s : string) : option string :=
  match s with
  | EmptyString => Some EmptyString
  | String a s' =>
      if is_space a then fromhex s'
      else
        match s' with
        | EmptyString => None
        | String b s'' =>
            if is_hex_digit a && is_hex_digit b
            then h ← fromhex s''; Some (String (lower_ascii a) (String (lower_ascii b) h))
            else None
        end
  end.

Definition ObjectId (s : string) : result ObjectId_t :=
  if Nat.eqb (String.length s) 24
  then match fromhex s with
       | Some h => Return (Oid h)
       | None => Raise InvalidId
       end
  else Raise InvalidId.

(** [str(oid)] *)
Definition str (oid : ObjectId_t) : string := oid_hex oid.

(** ** Stored values and documents *)

(** The dict that [upload_file] builds for one uploaded file. *)
Record FileMeta : Type := MkFileMeta {
  filename : option string;
  content_type : option string;
  size : nat;
  uploaded_at : datetime
}.

#[export] Instance FileMeta_eq_dec : EqDecision FileMeta.
Proof. solve_decision. Defined.

(** The values the handlers store in a document.  The only arrays are the
    lists of file metadata under ["files"]. *)
Inductive value : Type :=
  | VNull
  | VBool (b : bool)
  | VStr (s : string)
  | VInt (z : Z)
  | VDate (t : datetime)
  | VArray (l : list FileMeta).

#[export] Instance value_eq_dec : EqDecision value.
Proof. solve_decision. Defined.

(** Python truthiness of a stored value. *)
Definition truthy (v : value) : bool :=
  match v with
  | VNull => false
  | VBool b => b
  | VStr s => negb (String.eqb s "")
  | VInt z => negb (Z.eqb z 0)
  | VDate _ => true
  | VArray l => match l with [] => false | _ => true end
  end.

(** [d.get(k, dflt)] and [d.get(k)] on a dict. *)
Definition get (d : gmap string value) (k : string) (dflt : value) : value :=
  default dflt (d !! k).
Definition get_none (d : gmap string value) (k : string) : value :=
  get d k VNull.

Definition opt_str (o : option string) : value :=
  match o with
  | Some s => VStr s
  | None => VNull
  end.

(** A stored document: the [_id] the driver gave it and its other fields. *)
Record document : Type := Doc {
  _id : ObjectId_t;
  body : gmap string value
}.

#[export] Instance document_eq_dec : EqDecision document.
Proof. solve_decision. Defined.

(** The store. *)
Record Db : Type := MkDb {
  user : list document;
  project : list document;
  message : list document
}.

(** ** Collection operations *)

(** A filter document: an optional [_id] and equalities on string fields
    (the handlers filter on strings only). *)
Record query : Type := Query {
  q_id : option ObjectId_t;
  q_eq : gmap string string
}.

Definition Matches (q : query) (d : document) : Prop :=
  (forall o, q_id q = Some o -> _id d = o)
  /\ map_Forall (fun k s => body d !! k = Some (VStr s)) (q_eq q).

#[export] Instance Matches_dec q d : Decision (Matches q d).
Proof.
  unfold Matches. apply and_dec; [|apply _].
  destruct (q_id q) as [o|].
  - destruct (decide (_id d = o)) as [E|E].
    + left. intros o' [= <-]. exact E.
    + right. intros H. apply E, H. reflexivity.
  - left. intros o [=].
Defined.

(** [coll.find(q)], in natural (insertion) order. *)
Definition find (c : list document) (q : query) : list document :=
  filter (Matches q) c.

(** [coll.find_one(q)]: the first match, or [None]. *)
Fixpoint find_one (c : list document) (q : query) : option document :=
  match c with
  | [] => None
  | d :: c' => if decide (Matches q d) then Some d else find_one c' q
  end.

(** [coll.insert_one(doc)], with the [_id] the driver generates. *)
Definition insert_one (c : list document) (new_id : ObjectId_t)
    (doc : gmap string value) : result (list document * ObjectId_t) :=
  if decide (Exists (fun d => _id d = new_id) c)
  then Raise DuplicateKeyError
  else Return (c ++ [Doc new_id doc], new_id).

(** [coll.update_one(q, op)]: [op] is applied to the first match only; no
    match is not an error. *)
Fixpoint update_one (c : list document) (q : query)
    (op : document -> result document) : result (list document) :=
  match c with
  | [] => Return []
  | d :: c' =>
      if decide (Matches q d)
      then d' ← op d; Return (d' :: c')
      else c'' ← update_one c' q op; Return (d :: c'')
  end.

(** [{"$set": upd}] *)
Definition set_op (upd : gmap string value) (d : document) : result document :=
  Return (Doc (_id d) (upd ∪ body d)).

(** [{"$push": {"files": m}}]: appends to an array, creates it when the
    field is missing, and is a write error on any other value. *)
Definition push_files (m : FileMeta) (d : document) : result document :=
  match body d !! "files" with
  | Some (VArray l) => Return (Doc (_id d) (<["files" := VArray (l ++ [m])]> (body d)))
  | None => Return (Doc (_id d) (<["files" := VArray [m]]> (body d)))
  | Some _ => Raise WriteError
  end.

(** [cursor.sort(key, direction)].  BSON orders values by type first (a
    missing field sorts as null, then numbers, strings, arrays, booleans,
    dates) and then within the type; two arrays are not compared further
    here, the handlers sort on ["created_at"] only.  MongoDB documents no
    order among documents with equal keys: the sort below keeps them in
    natural order, and what is proved of a sorted listing is that it is a
    permutation in order of its keys, which holds of every such order. *)
Definition bson_rank (v : option value) : Z :=
  match v with
  | None | Some VNull => 1
  | Some (VInt _) => 2
  | Some (VStr _) => 3
  | Some (VArray _) => 5
  | Some (VBool _) => 8
  | Some (VDate _) => 9
  end.

Definition bson_leb (a b : option value) : bool :=
  match a, b with
  | Some (VInt x), Some (VInt y) => x <=? y
  | Some (VDate x), Some (VDate y) => x <=? y
  | Some (VStr x), Some (VStr y) => String.leb x y
  | Some (VBool x), Some (VBool y) => implb x y
  | _, _ => bson_rank a <=? bson_rank b
  end.

(** [d1] may come before [d2]: ascending for direction [1], descending
    otherwise. *)
Definition sort_leb (key : string) (direction : Z) (d1 d2 : document) : bool :=
  if direction =? 1
  then bson_leb (body d1 !! key) (body d2 !! key)
  else bson_leb (body d2 !! key) (body d1 !! key).

Fixpoint insert_sorted (leb : document -> document -> bool) (d : document)
    (l : list document) : list document :=
  match l with
  | [] => [d]
  | x :: l' => if leb d x then d :: l else x :: insert_sorted leb d l'
  end.

Definition sort (c : list document) (key : string) (direction : Z) : list document :=
  foldr (insert_sorted (sort_leb key direction)) [] c.

(** ** Handlers that write

    A handler that writes is a function from the store to the store it
    leaves and its outcome: what was written before an exception stays
    written. *)
Definition M (A : Type) : Type := Db -> Db * result A.

#[export] Instance M_ret : MRet M := fun A a db => (db, Return a).
#[export] Instance M_bind : MBind M := fun A B f m db =>
  match m db with
  | (db', Return a) => f a db'
  | (db', Raise e) => (db', Raise e)
  end.

Definition raise {A} (e : exn) : M A := fun db => (db, Raise e).
Definition lift {A} (r : result A) : M A := fun db => (db, r).

(** The three collections, [db["user"]], [db["project"]], [db["message"]]. *)
Inductive collection : Type := C_user | C_project | C_message.

Definition db_get (c : collection) (db : Db) : list document :=
  match c with
  | C_user => user db
  | C_project => project db
  | C_message => message db
  end.

Definition db_set (c : collection) (l : list document) (db : Db) : Db :=
  match c with
  | C_user => MkDb l (project db) (message db)
  | C_project => MkDb (user db) l (message db)
  | C_message => MkDb (user db) (project db) l
  end.

Definition db_find_one (c : collection) (q : query) : M (option document) :=
  fun db => (db, Return (find_one (db_get c db) q)).

Definition db_insert_one (c : collection) (new_id : ObjectId_t)
    (doc : gmap string value) : M ObjectId_t :=
  fun db =>
    match insert_one (db_get c db) new_id doc with
    | Return (l, inserted_id) => (db_set c l db, Return inserted_id)
    | Raise e => (db, Raise e)
    end.

Definition db_update_one (c : collection) (q : query)
    (op : document -> result document) : M unit :=
  fun db =>
    match update_one (db_get c db) q op with
    | Return l => (db_set c l db, Return ())
    | Raise e => (db, Raise e)
    end.

(** ** Request models ([BaseModel] classes of [main.py]) *)

Module SignupModel.
Record t : Type := mk {
  name : string;
  email : string;
  password : string;
  phone : option string
}.
End SignupModel.

Module LoginModel.
Record t : Type := mk { email : string; password : string }.
End LoginModel.

Module ProfileUpdateModel.
Record t : Type := mk { name : option string; phone : option string }.
(** [payload.model_dump().items()] *)
Definition model_dump_items (p : t) : list (string * option string) :=
  [("name", name p); ("phone", phone p)].
End ProfileUpdateModel.

Module ProjectCreateModel.
Record t : Type := mk {
  name : string;
  email : string;
  phone : option string;
  selected_service : string;
  description : string;
  budget : option string
}.
End ProjectCreateModel.

Module StatusUpdateModel.
Record t : Type := mk { status : string; notes : option string }.
End StatusUpdateModel.

Module MessageModel.
Record t : Type := mk { project_id : string; content : string }.
End MessageModel.

(** [fastapi.UploadFile] *)
Module UploadFile.
Record t : Type := mk {
  filename : option string;
  content_type : option string;
  content : list Byte.byte
}.
End UploadFile.

(** ** Stored models ([schemas.py]): [Model(...).model_dump()] *)

Definition User_model_dump (name email password_hash : string)
    (phone : option string) (is_admin : bool) : gmap string value :=
  <["name" := VStr name]>
  (<["email" := VStr email]>
  (<["password_hash" := VStr password_hash]>
  (<["phone" := opt_str phone]>
  (<["is_admin" := VBool is_admin]> ∅)))).

Definition Project_model_dump (user_id : option string) (name email : string)
    (phone : option string) (selected_service description : string)
    (budget : option string) (status : string) (notes : option string)
    (files : list FileMeta) : gmap string value :=
  <["user_id" := opt_str user_id]>
  (<["name" := VStr name]>
  (<["email" := VStr email]>
  (<["phone" := opt_str phone]>
  (<["selected_service" := VStr selected_service]>
  (<["description" := VStr description]>
  (<["budget" := opt_str budget]>
  (<["status" := VStr status]>
  (<["notes" := opt_str notes]>
  (<["files" := VArray files]> ∅))))))))).

Definition Message_model_dump (project_id : string) (sender_id : option string)
    (sender_role content : string) (created_at : option datetime)
    : gmap string value :=
  <["project_id" := VStr project_id]>
  (<["sender_id" := opt_str sender_id]>
  (<["sender_role" := VStr sender_role]>
  (<["content" := VStr content]>
  (<["created_at" := match created_at with Some t => VDate t | None => VNull end]> ∅)))).

(** ** Tokens ([jwt])

    A compact JWS is kept parsed: its [alg] header, its claims and its
    signature; [Malformed] stands for every string that does not parse. *)
Inductive token : Type :=
  | Malformed (raw : string)
  | JWS (alg : string) (claims : gmap string value) (signature : string).

Definition JWT_ALG : string := "HS256".
Definition ACCESS_TOKEN_EXPIRE_MINUTES : Z := 60 * 24 * 7.
Definition minutes (m : Z) : timedelta := m * 60 * 1000.

(** [a or b] on an optional [timedelta]: [None] and the zero duration are
    both falsy.  The handlers pass no [expires_delta]; a duration below
    the millisecond, which is not zero either, has no counterpart here. *)
Definition timedelta_or (a : option timedelta) (b : timedelta) : timedelta :=
  match a with
  | Some d => if d =? 0 then b else d
  | None => b
  end.

(** The answers of the handlers that are not plain dicts. *)
Record SignupResponse : Type := MkSignupResponse {
  signup_token : token;
  signup_user : gmap string value
}.

Record LoginResponse : Type := MkLoginResponse {
  access_token : token;
  token_type : string;
  login_user : gmap string value
}.

Record UploadResponse : Type := MkUploadResponse {
  upload_message : string;
  file : FileMeta
}.

(** [current_user.get("is_admin", False)] in a condition *)
Definition is_admin (current_user : document) : bool :=
  truthy (get (body current_user) "is_admin" (VBool false)).

(** The dict [get_me] and [update_me] answer with. *)
Definition profile (u : document) : gmap string value :=
  <["_id" := VStr (str (_id u))]>
  (<["name" := get_none (body u) "name"]>
  (<["email" := get_none (body u) "email"]>
  (<["phone" := get_none (body u) "phone"]>
  (<["is_admin" := get (body u) "is_admin" (VBool false)]> ∅)))).

(** [p["_id"] = str(p["_id"])] on a document that is sent back. *)
Definition stringify_id (p : document) : gmap string value :=
  <["_id" := VStr (str (_id p))]> (body p).

(** ** The handlers *)

Section Handlers.

(** [os.getenv("JWT_SECRET", "dev-secret")], read once at start-up. *)
Variable JWT_SECRET : string.
(** The HS256 signature of a header and claims under a key. *)
Variable hs256_sign : string -> string -> gmap string value -> string.
(** [int(s)] on a string: the integer it denotes, or nothing when [int]
    raises [ValueError]. *)
Variable int_str : string -> option Z.
(** passlib's bcrypt handler on a hash it has identified as bcrypt:
    [hash] (salted, so it takes the salt) and [verify], which can still
    raise on a hash that does not parse. *)
Variable bcrypt_hash : string -> string -> string.
Variable bcrypt_verify : string -> string -> result bool.

(** *** jwt.encode / jwt.decode *)

(** A [datetime] under a registered time claim is encoded as its integer
    timestamp, in whole seconds. *)
Definition timegm_claim (k : string) (p : gmap string value) : gmap string value :=
  match p !! k with
  | Some (VDate t) => <[k := VInt (timegm t)]> p
  | _ => p
  end.

Definition jwt_encode (payload : gmap string value) (key alg : string) : token :=
  let payload := timegm_claim "exp" (timegm_claim "iat" (timegm_claim "nbf" payload)) in
  JWS alg payload (hs256_sign key alg payload).

(** [int(v)] on the value of a claim: a number is itself, a boolean 0 or
    1, a string what [int] reads in it; any other value is a [TypeError]. *)
Definition int_ (v : value) : result Z :=
  match v with
  | VInt z => Return z
  | VBool b => Return (if b then 1 else 0)
  | VStr s =>
      match int_str s with
      | Some z => Return z
      | None => Raise (ValueError "invalid literal for int()")
      end
  | VNull | VDate _ | VArray _ => Raise TypeError
  end.

(** [try: int(v) except ValueError: raise e]; a [TypeError] passes. *)
Definition int_claim (v : value) (e : exn) : result Z :=
  try_except (int_ v)
    (fun e' => match e' with ValueError _ => e | _ => e' end).

(** The checks of the registered claims, in the order [jwt] makes them
    (no audience or issuer is asked for, and no leeway given): a claim
    that is absent is not checked; ["iat"] and ["nbf"] must be integers
    that are not in the future; ["exp"] an integer, and the token is
    expired as soon as [exp <= now]; an ["aud"] that is not empty is
    refused.  A release of the library that checks more than this refuses
    more tokens; what is proved below of a token that is accepted holds of
    the tokens it accepts. *)
Definition validate_iat (payload : gmap string value) (now : datetime) : result unit :=
  match payload !! "iat" with
  | None => Return ()
  | Some v =>
      iat ← int_claim v InvalidIssuedAtError;
      if negb (seconds_leb iat now) then Raise ImmatureSignatureError else Return ()
  end.

Definition validate_nbf (payload : gmap string value) (now : datetime) : result unit :=
  match payload !! "nbf" with
  | None => Return ()
  | Some v =>
      nbf ← int_claim v DecodeError;
      if negb (seconds_leb nbf now) then Raise ImmatureSignatureError else Return ()
  end.

Definition validate_exp (payload : gmap string value) (now : datetime) : result unit :=
  match payload !! "exp" with
  | None => Return ()
  | Some v =>
      exp ← int_claim v DecodeError;
      if seconds_leb exp now then Raise ExpiredSignatureError else Return ()
  end.

Definition validate_aud (payload : gmap string value) : result unit :=
  match payload !! "aud" with
  | None => Return ()
  | Some v => if negb (truthy v) then Return () else Raise InvalidAudienceError
  end.

Definition validate_claims (payload : gmap string value) (now : datetime)
    : result unit :=
  _ ← validate_iat payload now;
  _ ← validate_nbf payload now;
  _ ← validate_exp payload now;
  validate_aud payload.

(** [jwt.decode(token, key, algorithms=[...])]: the token is parsed, then
    its algorithm and its signature are checked, then its claims. *)
Definition jwt_decode (tok : token) (key : string) (algorithms : list string)
    (now : datetime) : result (gmap string value) :=
  match tok with
  | Malformed _ => Raise DecodeError
  | JWS alg payload sig =>
      if negb (bool_decide (alg ∈ algorithms)) then Raise InvalidAlgorithmError
      else if negb (String.eqb sig (hs256_sign key alg payload)) then Raise InvalidSignatureError
      else _ ← validate_claims payload now; Return payload
  end.

(** *** Utility functions *)

(** [pwd_context = CryptContext(schemes=["bcrypt"], deprecated="auto")].
    The context identifies a hash by the prefixes of its scheme before it
    hands it to the scheme's handler. *)
Definition bcrypt_ident_values : list string :=
  ["$2$"; "$2a$"; "$2x$"; "$2y$"; "$2b$"].

Definition bcrypt_identify (hash : string) : bool :=
  existsb (fun ident => String.prefix ident hash) bcrypt_ident_values.

(** [pwd_context.verify(secret, hash)]: [None] is answered [False]; a
    string that no scheme identifies, the empty string among them, raises
    [UnknownHashError] instead of answering; a value that is no string
    raises [TypeError]. *)
Definition pwd_context_verify (secret : string) (hash : value) : result bool :=
  match hash with
  | VNull => Return false
  | VStr h =>
      if bcrypt_identify h then bcrypt_verify secret h
      else Raise UnknownHashError
  | _ => Raise TypeError
  end.

Definition hash_password (salt password : string) : string :=
  bcrypt_hash salt password.

Definition verify_password (password : string) (hashed : value) : result bool :=
  pwd_context_verify password hashed.

Definition create_access_token (now : datetime) (data : gmap string value)
    (expires_delta : option timedelta) : token :=
  let to_encode := data in
  let expire := now + timedelta_or expires_delta (minutes ACCESS_TOKEN_EXPIRE_MINUTES) in
  let to_encode := <["exp" := VDate expire]> to_encode in
  jwt_encode to_encode JWT_SECRET JWT_ALG.

(** *** Auth dependency *)

Definition get_current_user (db : Db) (now : datetime) (tok : token)
    : result document :=
  try_except
    (payload ← jwt_decode tok JWT_SECRET [JWT_ALG] now;
     match get_none payload "sub" with
     | VNull => Raise (HTTPException 401 "Invalid token")
     | VStr user_id =>
         oid ← ObjectId user_id;
         match find_one (user db) (Query (Some oid) ∅) with
         | None => Raise (HTTPException 401 "User not found")
         | Some u => Return u
         end
     | _ => Raise TypeError
     end)
    (fun e =>
       match e with
       | ExpiredSignatureError => HTTPException 401 "Token expired"
       | _ => HTTPException 401 "Could not validate credentials"
       end).

(** *** Auth endpoints *)

Definition signup (now : datetime) (salt : string) (new_user_id : ObjectId_t)
    (payload : SignupModel.t) : M SignupResponse :=
  existing ← db_find_one C_user (Query None {["email" := SignupModel.email payload]});
  match existing with
  | Some _ => raise (HTTPException 400 "Email already registered")
  | None =>
      let user_doc :=
        User_model_dump (SignupModel.name payload) (SignupModel.email payload)
          (hash_password salt (SignupModel.password payload))
          (SignupModel.phone payload) false in
      inserted_id ← db_insert_one C_user new_user_id user_doc;
      let token := create_access_token now {["sub" := VStr (str inserted_id)]} None in
      mret (MkSignupResponse token
              (<["_id" := VStr (str inserted_id)]>
              (<["name" := VStr (SignupModel.name payload)]>
              (<["email" := VStr (SignupModel.email payload)]>
              (<["is_admin" := VBool false]> ∅)))))
  end.

Definition login (db : Db) (now : datetime) (payload : LoginModel.t)
    : result LoginResponse :=
  let user := find_one (user db) (Query None {["email" := LoginModel.email payload]}) in
  match user with
  | None => Raise (HTTPException 401 "Invalid credentials")
  | Some user =>
      ok ← verify_password (LoginModel.password payload)
             (get (body user) "password_hash" (VStr ""));
      if negb ok then Raise (HTTPException 401 "Invalid credentials")
      else
        let token := create_access_token now {["sub" := VStr (str (_id user))]} None in
        Return (MkLoginResponse token "bearer"
                  (<["_id" := VStr (str (_id user))]>
                  (<["name" := get_none (body user) "name"]>
                  (<["email" := get_none (body user) "email"]>
                  (<["is_admin" := get (body user) "is_admin" (VBool false)]> ∅)))))
  end.

(** *** Customer profile *)

Definition get_me (current_user : document) : gmap string value :=
  profile current_user.

(** [{k: v for k, v in payload.model_dump().items() if v is not None}] *)
Definition profile_update (payload : ProfileUpdateModel.t) : gmap string value :=
  list_to_map
    (omap (fun kv : string * option string =>
             match kv.2 with
             | Some v => Some (kv.1, VStr v)
             | None => None
             end)
          (ProfileUpdateModel.model_dump_items payload)).

Definition update_me (payload : ProfileUpdateModel.t) (current_user : document)
    : M (gmap string value) :=
  let update := profile_update payload in
  _ ← (if bool_decide (update ≠ ∅)
       then db_update_one C_user (Query (Some (_id current_user)) ∅) (set_op update)
       else mret ());
  u ← db_find_one C_user (Query (Some (_id current_user)) ∅);
  match u with
  | None => raise TypeError
  | Some u => mret (profile u)
  end.

(** *** Projects *)

Definition create_project (now : datetime)
    (new_project_id new_message_id : ObjectId_t)
    (payload : ProjectCreateModel.t) (current_user : document)
    : M (gmap string value) :=
  let project :=
    Project_model_dump
      (Some (str (_id current_user)))
      (ProjectCreateModel.name payload)
      (ProjectCreateModel.email payload)
      (ProjectCreateModel.phone payload)
      (ProjectCreateModel.selected_service payload)
      (ProjectCreateModel.description payload)
      (ProjectCreateModel.budget payload)
      "Pending" None [] in
  inserted_id ← db_insert_one C_project new_project_id project;
  (* initial message *)
  _ ← db_insert_one C_message new_message_id
        (<["project_id" := VStr (str inserted_id)]>
        (<["sender_id" := VStr (str (_id current_user))]>
        (<["sender_role" := VStr "customer"]>
        (<["content" := VStr "New project submitted"]>
        (<["created_at" := VDate now]> ∅)))));
  mret {["_id" := VStr (str inserted_id)]}.

Definition list_my_projects (db : Db) (current_user : document)
    : list (gmap string value) :=
  let cur := find (project db) (Query None {["user_id" := str (_id current_user)]}) in
  stringify_id <$> cur.

Definition upload_file (now : datetime) (project_id : string)
    (file : UploadFile.t) (current_user : document) : M UploadResponse :=
  oid ← lift (ObjectId project_id);
  project ← db_find_one C_project
              (Query (Some oid) {["user_id" := str (_id current_user)]});
  if negb (bool_decide (is_Some project)) && negb (is_admin current_user)
  then raise (HTTPException 404 "Project not found")
  else
    let content := UploadFile.content file in
    let file_meta :=
      MkFileMeta (UploadFile.filename file) (UploadFile.content_type file)
                 (length content) now in
    oid ← lift (ObjectId project_id);
    _ ← db_update_one C_project (Query (Some oid) ∅) (push_files file_meta);
    mret (MkUploadResponse "File uploaded" file_meta).

Definition send_message (now : datetime) (new_message_id : ObjectId_t)
    (project_id : string) (payload : MessageModel.t) (current_user : document)
    : M (gmap string value) :=
  oid ← lift (ObjectId project_id);
  project ← db_find_one C_project (Query (Some oid) ∅);
  match project with
  | None => raise (HTTPException 404 "Project not found")
  | Some _ =>
      let sender_role := if is_admin current_user then "admin" else "customer" in
      let msg :=
        Message_model_dump project_id (Some (str (_id current_user)))
                           sender_role (MessageModel.content payload) (Some now) in
      _ ← db_insert_one C_message new_message_id msg;
      mret {["message" := VStr "Sent"]}
  end.

Definition get_messages (db : Db) (project_id : string) (current_user : document)
    : list (gmap string value) :=
  let msgs := sort (find (message db) (Query None {["project_id" := project_id]}))
                   "created_at" 1 in
  stringify_id <$> msgs.

(** *** Admin endpoints *)

(** [if s:] on an optional query parameter: [None] and [""] are falsy. *)
Definition supplied (s : option string) : option string :=
  match s with
  | Some x => if String.eqb x "" then None else Some x
  | None => None
  end.

Definition admin_list_projects (db : Db) (service status : option string)
    (current_user : document) : result (list (gmap string value)) :=
  if negb (is_admin current_user) then Raise (HTTPException 403 "Admins only")
  else
    let q : gmap string string := ∅ in
    let q := match supplied service with
             | Some service => <["selected_service" := service]> q
             | None => q
             end in
    let q := match supplied status with
             | Some status => <["status" := status]> q
             | None => q
             end in
    let cur := sort (find (project db) (Query None q)) "created_at" (-1) in
    Return (stringify_id <$> cur).

Definition admin_update_status (project_id : string)
    (payload : StatusUpdateModel.t) (current_user : document)
    : M (gmap string value) :=
  if negb (is_admin current_user) then raise (HTTPException 403 "Admins only")
  else
    let update : gmap string value :=
      {["status" := VStr (StatusUpdateModel.status payload)]} in
    let update := match StatusUpdateModel.notes payload with
                  | Some notes => <["notes" := VStr notes]> update
                  | None => update
                  end in
    oid ← lift (ObjectId project_id);
    _ ← db_update_one C_project (Query (Some oid) ∅) (set_op update);
    mret {["message" := VStr "Status updated"]}.

(** [inspect.getsource(schemas)] is the text of [schemas.py], whatever it
    is; the handler has no dependency on [get_current_user]. *)
Definition get_schema (getsource_schemas : string) : gmap string value :=
  {["schemas" := VStr getsource_schemas]}.

End Handlers.

(** ** The route table

    One entry per [@app.<method>(path)] decorator of [main.py], in source
    order; [needs_user] says whether the handler depends on
    [get_current_user]. *)
Record route : Type := Route {
  http_method : string;
  path : string;
  needs_user : bool
}.

Definition routes : list route :=
  [ Route "GET" "/" false;
    Route "GET" "/test" false;
    Route "POST" "/auth/signup" false;
    Route "POST" "/auth/login" false;
    Route "GET" "/me" true;
    Route "PUT" "/me" true;
    Route "POST" "/projects" true;
    Route "GET" "/projects" true;
    Route "POST" "/projects/{project_id}/files" true;
    Route "POST" "/projects/{project_id}/messages" true;
    Route "GET" "/projects/{project_id}/messages" true;
    Route "GET" "/admin/projects" true;
    Route "PUT" "/admin/projects/{project_id}/status" true;
    Route "GET" "/schema" false ].

(** The documented route table (method and path of each row), as the
    specification lists it; this definition follows the specification, to
    be compared with [routes]. *)
Definition documented_routes : list (string * string) :=
  [ ("GET", "/");
    ("GET", "/test");
    ("POST", "/auth/signup");
    ("POST", "/auth/login");
    ("GET", "/me");
    ("PUT", "/me");
    ("POST", "/projects");
    ("GET", "/projects");
    ("POST", "/projects/{id}/files");
    ("POST", "/projects/{id}/messages");
    ("GET", "/projects/{id}/messages");
    ("GET", "/admin/projects");
    ("PUT", "/admin/projects/{id}/status") ].

(** ** What the specification calls the errors *)

Definition Forbidden : exn := HTTPException 403 "Admins only".
Definition NotFound : exn := HTTPException 404 "Project not found".
Definition InvalidCredentials : exn := HTTPException 401 "Invalid credentials".
Definition TokenExpired : exn := HTTPException 401 "Token expired".
Definition TokenInvalid : exn := HTTPException 401 "Could not validate credentials".

(** The file list of a project document: the array under ["files"], empty
    when the field is missing, and nothing when it holds another value. *)
Definition files_of (p : document) : option (list FileMeta) :=
  match body p !! "files" with
  | Some (VArray l) => Some l
  | None => Some []
  | Some _ => None
  end.

(** What the store guarantees of the project collection: [_id] is unique
    (the driver's index) and ["files"], where present, is an array (the
    [Project] schema). *)
Definition projects_wf (db : Db) : Prop :=
  NoDup (_id <$> project db)
  /\ Forall (fun p => is_Some (files_of p)) (project db).

(** An equality filter of [listAll] holds of a project when it is absent,
    empty, or equal to the project's field. *)
Definition filter_holds (f : option string) (k : string) (p : document) : Prop :=
  match f with
  | Some s => s = "" \/ body p !! k = Some (VStr s)
  | None => True
  end.

#[export] Instance filter_holds_dec f k p : Decision (filter_holds f k p).
Proof. unfold filter_holds. destruct f; apply _. Defined.

(** The metadata [upload_file] records for a file received at [now]. *)
Definition file_meta_of (file : UploadFile.t) (now : datetime) : FileMeta :=
  MkFileMeta (UploadFile.filename file) (UploadFile.content_type file)
             (length (UploadFile.content file)) now.

#[export] Instance route_eq_dec : EqDecision route.
Proof. solve_decision. Defined.

(** ** The bearer header ([get_bearer_token])

    [lower] is [str.lower] on the ASCII letters; the test below looks at
    the first seven characters only, and no other character lowers to one
    of theirs. *)
Definition lower (s : string) : string := string_map lower_ascii s.

(** [s.startswith(p)] *)
Definition startswith (s p : string) : bool := String.prefix p s.

(** [s.split(sep, 1)]: the text before the first [sep] and the text after
    it, or [s] alone when it has no [sep]. *)
Fixpoint split_once (sep : ascii) (s : string) : list string :=
  match s with
  | EmptyString => [EmptyString]
  | String a s' =>
      if Ascii.eqb a sep then [EmptyString; s']
      else match split_once sep s' with
           | h :: t => String a h :: t
           | [] => []
           end
  end.

(** [l[i]], whose [IndexError] is no member of [exn]. *)
Inductive subscript_result (A : Type) : Type :=
  | Item (a : A)
  | IndexError.
Arguments Item {A} a.
Arguments IndexError {A}.

Definition subscript {A} (l : list A) (i : nat) : subscript_result A :=
  match l !! i with
  | Some a => Item a
  | None => IndexError
  end.

Definition get_bearer_token (authorization : option string)
    : result (subscript_result string) :=
  match authorization with
  | None => Raise (HTTPException 401 "Not authenticated")
  | Some authorization =>
      if negb (negb (String.eqb authorization ""))
         || negb (startswith (lower authorization) "bearer ")
      then Raise (HTTPException 401 "Not authenticated")
      else Return (subscript (split_once " "%char authorization) 1)
  end.

(** ** Requests

    [with_current_user] is the [Depends(get_current_user)] of a route: the
    handler runs on the user the token resolves to, and not at all when the
    token is refused.  [request] lists the routes that write, and [serve]
    is the store a request leaves. *)
Section Requests.

Variable JWT_SECRET : string.
Variable hs256_sign : string -> string -> gmap string value -> string.
Variable int_str : string -> option Z.
Variable bcrypt_hash : string -> string -> string.

Definition with_current_user {A} (now : datetime) (tok : token)
    (handler : document -> M A) : M A :=
  fun db =>
    match get_current_user JWT_SECRET hs256_sign int_str db now tok with
    | Return current_user => handler current_user db
    | Raise e => (db, Raise e)
    end.

Inductive request : Type :=
  | POST_auth_signup (salt : string) (new_user_id : ObjectId_t)
      (payload : SignupModel.t)
  | PUT_me (tok : token) (payload : ProfileUpdateModel.t)
  | POST_projects (tok : token) (new_project_id new_message_id : ObjectId_t)
      (payload : ProjectCreateModel.t)
  | POST_projects_files (tok : token) (project_id : string) (file : UploadFile.t)
  | POST_projects_messages (tok : token) (new_message_id : ObjectId_t)
      (project_id : string) (payload : MessageModel.t)
  | PUT_admin_projects_status (tok : token) (project_id : string)
      (payload : StatusUpdateModel.t).

Definition serve (now : datetime) (r : request) (db : Db) : Db :=
  match r with
  | POST_auth_signup salt new_user_id payload =>
      (signup JWT_SECRET hs256_sign bcrypt_hash now salt new_user_id payload db).1
  | PUT_me tok payload =>
      (with_current_user now tok (update_me payload) db).1
  | POST_projects tok new_project_id new_message_id payload =>
      (with_current_user now tok
         (create_project now new_project_id new_message_id payload) db).1
  | POST_projects_files tok project_id file =>
      (with_current_user now tok (upload_file now project_id file) db).1
  | POST_projects_messages tok new_message_id project_id payload =>
      (with_current_user now tok
         (send_message now new_message_id project_id payload) db).1
  | PUT_admin_projects_status tok project_id payload =>
      (with_current_user now tok (admin_update_status project_id payload) db).1
  end.

(** The store after a sequence of requests, each at its instant. *)
Definition serve_all (rs : list (datetime * request)) (db : Db) : Db :=
  foldl (fun db r => serve r.1 r.2 db) db rs.

End Requests.

(** What a request may do to a stored user: the id stays, and so does
    every field but ["name"] and ["phone"]. *)
Definition user_step (u u' : document) : Prop :=
  _id u' = _id u
  /\ forall k, k <> "name" -> k <> "phone" -> body u' !! k = body u !! k.

(** What a request may do to a stored project: the id stays, and so does
    every field but ["status"], ["notes"] and ["files"]; a file list only
    grows at its end. *)
Definition project_step (p p' : document) : Prop :=
  _id p' = _id p
  /\ (forall k, k <> "status" -> k <> "notes" -> k <> "files" ->
                body p' !! k = body p !! k)
  /\ (forall fs, files_of p = Some fs ->
                 exists fs', files_of p' = Some fs' /\ fs `prefix_of` fs').

(** The same, with ["status"] and ["notes"] kept as well. *)
Definition project_kept (p p' : document) : Prop :=
  project_step p p'
  /\ body p' !! "status" = body p !! "status"
  /\ body p' !! "notes" = body p !! "notes".

(** The document [signup] stores for a payload. *)
Definition new_user (bcrypt_hash : string -> string -> string) (salt : string)
    (new_user_id : ObjectId_t) (payload : SignupModel.t) : document :=
  Doc new_user_id
      (User_model_dump (SignupModel.name payload) (SignupModel.email payload)
         (hash_password bcrypt_hash salt (SignupModel.password payload))
         (SignupModel.phone payload) false).

(** ** Sample data

    A small store and the inputs the examples below run the handlers on. *)
Module Sample.

Definition admin_id : ObjectId_t := Oid "65a000000000000000000001".
Definition alice_id : ObjectId_t := Oid "65a000000000000000000002".
Definition bob_id : ObjectId_t := Oid "65a000000000000000000003".
Definition p1_id : ObjectId_t := Oid "65b000000000000000000001".
Definition p2_id : ObjectId_t := Oid "65b000000000000000000002".
Definition m1_id : ObjectId_t := Oid "65c000000000000000000001".
Definition m2_id : ObjectId_t := Oid "65c000000000000000000002".

Definition admin : document :=
  Doc admin_id (User_model_dump "Ada" "ada@example.com" "$2b$12$adahash" None true).
Definition alice : document :=
  Doc alice_id (User_model_dump "Alice" "alice@example.com" "$2b$12$alicehash"
                                (Some "555-0100") false).
Definition bob : document :=
  Doc bob_id (User_model_dump "Bob" "bob@example.com" "$2b$12$bobhash" None false).
(** A user whose stored hash is not a bcrypt hash. *)
Definition carol : document :=
  Doc (Oid "65a000000000000000000004")
      (User_model_dump "Carol" "carol@example.com" "plaintext" None false).

Definition p1 : document :=
  Doc p1_id (Project_model_dump (Some (str alice_id)) "Alice" "alice@example.com"
               None "Branding" "A logo" None "Pending" None []).

Definition db : Db := MkDb [admin; alice; bob; carol] [p1] [].

Definition logo : UploadFile.t :=
  UploadFile.mk (Some "logo.png") (Some "image/png") [Byte.x89; Byte.x50; Byte.x4e; Byte.x47].

Definition new_project : ProjectCreateModel.t :=
  ProjectCreateModel.mk "Ada" "ada@example.com" None "Video" "A teaser" None.

(** Stand-ins for the two primitives: a signature that is the key itself,
    and a hash check that compares with the text after the prefix. *)
Definition sign (key alg : string) (claims : gmap string value) : string := key.
Definition check (password hash : string) : result bool :=
  Return (String.eqb hash ("$2b$12$" ++ password)%string).

(** A stand-in for [int] on a string: plain decimal digits. *)
Fixpoint digits (acc : Z) (s : string) : option Z :=
  match s with
  | EmptyString => Some acc
  | String a s' =>
      let n := nat_of_ascii a in
      if ((48 <=? n)%nat && (n <=? 57)%nat)
      then digits (10 * acc + Z.of_nat (n - 48)) s'
      else None
  end.
Definition int_str (s : string) : option Z :=
  if String.eqb s "" then None else digits 0 s.

(** A hash function that [check] verifies. *)
Definition hash (salt password : string) : string := ("$2b$12$" ++ password)%string.

(** A store whose projects carry a creation date, as a seeding script
    may have stored them; the older project comes first. *)
Definition dated : Db :=
  MkDb [admin]
       [Doc p1_id (<["created_at" := VDate 100000]> (body p1));
        Doc p2_id (<["created_at" := VDate 200000]> (body p1))]
       [].

(** A store without an admin. *)
Definition customers : Db := MkDb [alice; bob] [p1] [].

(** The same, with one file already in the project. *)
Definition brief : FileMeta :=
  MkFileMeta (Some "brief.pdf") (Some "application/pdf") 1024 1000.
Definition customers_with_file : Db :=
  MkDb [alice; bob] [Doc p1_id (<["files" := VArray [brief]]> (body p1))] [].

(** A token signed under the secret whose expiry is a string of digits. *)
Definition string_exp_token : token :=
  JWS "HS256" (<["exp" := VStr "605800"]> {["sub" := VStr (str alice_id)]})
      "dev-secret".

Definition dana_id : ObjectId_t := Oid "65a000000000000000000005".
Definition dana : SignupModel.t :=
  SignupModel.mk "Dana" "dana@example.com" "s3cret" (Some "555-0101").

Definition token_of (user_id : ObjectId_t) : token :=
  create_access_token "dev-secret" sign 1000 {["sub" := VStr (str user_id)]} None.

Definition hello : MessageModel.t :=
  MessageModel.mk "65b000000000000000000001" "Hello".

Definition requests : list (datetime * request) :=
  [ (2000, POST_auth_signup "salt" dana_id dana);
    (2001, PUT_me (token_of alice_id) (ProfileUpdateModel.mk (Some "Alicia") None));
    (2002, POST_projects (token_of bob_id) p2_id m1_id new_project);
    (2003, POST_projects_files (token_of alice_id) "65b000000000000000000001" logo);
    (2004, POST_projects_messages (token_of bob_id) m2_id
             "65b000000000000000000001" hello);
    (2005, PUT_admin_projects_status (token_of alice_id) "65b000000000000000000001"
             (StatusUpdateModel.mk "Done" (Some "rush"))) ].

End Sample.

(** ** Running a handler

    [run] unfolds the plumbing of a handler applied to a store. *)
Ltac run :=
  unfold mbind, mret, M_bind, M_ret, lift, raise,
         db_find_one, db_insert_one, db_update_one, db_get, db_set; simpl.

(** ** Facts about the collection operations *)

Section Collections.

Implicit Types (c : list document) (q : query) (d : document).

Lemma find_one_Some c q d :
  find_one c q = Some d ->
  exists c1 c2, c = c1 ++ d :: c2 /\ Matches q d /\ Forall (fun x => ~ Matches q x) c1.
Proof.
  induction c as [|x c IH]; simpl; [discriminate|].
  destruct (decide (Matches q x)) as [Hx|Hx].
  - intros [= ->]. exists [], c. auto.
  - intros H. destruct (IH H) as (c1 & c2 & -> & Hd & Hc1).
    exists (x :: c1), c2. auto.
Qed.

Lemma find_one_None c q :
  find_one c q = None <-> Forall (fun x => ~ Matches q x) c.
Proof.
  induction c as [|x c IH]; simpl.
  - split; [constructor | reflexivity].
  - destruct (decide (Matches q x)) as [Hx|Hx].
    + split; [discriminate|]. intros H. inversion H; subst. contradiction.
    + rewrite IH. split; [by constructor|]. intros H. by inversion H.
Qed.

Lemma find_one_app_hit c1 c2 q d :
  Forall (fun x => ~ Matches q x) c1 -> Matches q d ->
  find_one (c1 ++ d :: c2) q = Some d.
Proof.
  induction 1 as [|x c1 Hx _ IH]; intros Hd; simpl.
  - by rewrite decide_True.
  - rewrite decide_False by done. by apply IH.
Qed.

Lemma find_no_match c q :
  Forall (fun x => ~ Matches q x) c -> find c q = [].
Proof.
  unfold find. induction 1 as [|x c Hx _ IH]; [done|].
  by rewrite filter_cons_False.
Qed.

Lemma insert_sorted_Permutation leb d l : insert_sorted leb d l ≡ₚ d :: l.
Proof.
  induction l as [|x l IH]; simpl; [done|].
  destruct (leb d x); [done|]. rewrite IH. apply Permutation_swap.
Qed.

Lemma sort_Permutation c key direction : sort c key direction ≡ₚ c.
Proof.
  unfold sort. induction c as [|d c IH]; simpl; [done|].
  by rewrite insert_sorted_Permutation, IH.
Qed.

Lemma update_one_no_match c q op :
  Forall (fun x => ~ Matches q x) c -> update_one c q op = Return c.
Proof.
  induction 1 as [|x c Hx _ IH]; simpl; [done|].
  rewrite decide_False by done. by rewrite IH.
Qed.

Lemma update_one_hit c1 c2 q d op :
  Forall (fun x => ~ Matches q x) c1 -> Matches q d ->
  update_one (c1 ++ d :: c2) q op = (d' ← op d; Return (c1 ++ d' :: c2)).
Proof.
  induction 1 as [|x c1 Hx _ IH]; intros Hd; simpl.
  - by rewrite decide_True.
  - rewrite decide_False by done. rewrite (IH Hd).
    by destruct (op d).
Qed.

Lemma update_one_found c q d op :
  find_one c q = Some d ->
  exists c1 c2,
    c = c1 ++ d :: c2
    /\ update_one c q op = (d' ← op d; Return (c1 ++ d' :: c2)).
Proof.
  intros Hfind.
  destruct (find_one_Some _ _ _ Hfind) as (c1 & c2 & -> & Hm & Hc1).
  exists c1, c2. split; [done|]. by apply update_one_hit.
Qed.

(** A query on [_id] alone matches exactly the documents with that id. *)
Lemma Matches_id o d : Matches (Query (Some o) ∅) d <-> _id d = o.
Proof.
  unfold Matches; simpl. split.
  - intros [H _]. by apply H.
  - intros <-. split; [by intros ? [= <-]|]. apply map_Forall_empty.
Qed.

Lemma Matches_id_field o k s d :
  Matches (Query (Some o) {[k := s]}) d <-> _id d = o /\ body d !! k = Some (VStr s).
Proof.
  unfold Matches; simpl. rewrite map_Forall_singleton. split.
  - intros [H ?]. split; [by apply H | done].
  - intros [<- ?]. split; [by intros ? [= <-] | done].
Qed.

(** With unique ids, the document a query on [_id] finds is the only one
    a narrower query can find. *)
Lemma find_one_id_field c o k s d :
  NoDup (_id <$> c) ->
  find_one c (Query (Some o) ∅) = Some d ->
  find_one c (Query (Some o) {[k := s]})
  = if decide (body d !! k = Some (VStr s)) then Some d else None.
Proof.
  intros Hnd Hd.
  destruct (find_one_Some _ _ _ Hd) as (c1 & c2 & -> & Hm & Hc1).
  apply Matches_id in Hm.
  assert (Hc1' : Forall (fun x => ~ Matches (Query (Some o) {[k := s]}) x) c1).
  { eapply Forall_impl; [exact Hc1|]. intros x Hx Hx'. apply Hx.
    apply Matches_id. by apply Matches_id_field in Hx' as [? _]. }
  destruct (decide (body d !! k = Some (VStr s))) as [Hk|Hk].
  - apply find_one_app_hit; [done|]. by apply Matches_id_field.
  - apply find_one_None. apply Forall_app. split; [done|].
    rewrite fmap_app, fmap_cons in Hnd.
    apply NoDup_app in Hnd as (_ & _ & Hnd).
    apply NoDup_cons in Hnd as [Hnotin _].
    constructor.
    + intros Hx. apply Matches_id_field in Hx as [_ ?]. done.
    + apply Forall_forall. intros x Hx Hx'.
      apply Matches_id_field in Hx' as [Hid _].
      apply Hnotin. rewrite Hm, <- Hid. apply list_elem_of_fmap. eauto.
Qed.

End Collections.

Section CollectionsUnique.

Implicit Types (c : list document) (d : document).

Lemma find_one_id_elem c d :
  NoDup (_id <$> c) -> d ∈ c -> find_one c (Query (Some (_id d)) ∅) = Some d.
Proof.
  intros Hnd Hin.
  apply list_elem_of_split in Hin as (c1 & c2 & ->).
  apply find_one_app_hit; [|by apply Matches_id].
  rewrite fmap_app, fmap_cons in Hnd.
  apply NoDup_app in Hnd as (_ & Hdisj & _).
  apply Forall_forall. intros x Hx Hm. apply Matches_id in Hm.
  apply (Hdisj (_id x)); [apply list_elem_of_fmap; eauto|].
  rewrite Hm. left.
Qed.

Lemma find_one_id_absent c o :
  Forall (fun d => _id d <> o) c -> find_one c (Query (Some o) ∅) = None.
Proof.
  intros H. apply find_one_None. eapply Forall_impl; [exact H|].
  intros x Hx Hm. by apply Matches_id in Hm.
Qed.

Lemma find_one_id_field_absent c o k s :
  Forall (fun d => _id d <> o) c -> find_one c (Query (Some o) {[k := s]}) = None.
Proof.
  intros H. apply find_one_None. eapply Forall_impl; [exact H|].
  intros x Hx Hm. by apply Matches_id_field in Hm as [? _].
Qed.

Lemma update_one_id_absent c o op :
  Forall (fun d => _id d <> o) c -> update_one c (Query (Some o) ∅) op = Return c.
Proof.
  intros H. apply update_one_no_match. eapply Forall_impl; [exact H|].
  intros x Hx Hm. by apply Matches_id in Hm.
Qed.

End CollectionsUnique.

(** ** The project collection stays well-formed *)

Lemma update_one_ids c q op c' :
  (forall d d', op d = Return d' -> _id d' = _id d) ->
  update_one c q op = Return c' ->
  _id <$> c' = _id <$> c.
Proof.
  intros Hop. revert c'.
  induction c as [|x c IH]; simpl; intros c'.
  - by intros [= <-].
  - destruct (decide (Matches q x)).
    + destruct (op x) as [x'|] eqn:Hx; simpl; [|done].
      intros [= <-]. rewrite !fmap_cons. by rewrite (Hop _ _ Hx).
    + destruct (update_one c q op) as [c''|]; simpl; [|done].
      intros [= <-]. rewrite !fmap_cons. by rewrite (IH c'').
Qed.

Lemma update_one_Forall (P : document -> Prop) c q op c' :
  (forall d d', P d -> op d = Return d' -> P d') ->
  Forall P c ->
  update_one c q op = Return c' ->
  Forall P c'.
Proof.
  intros Hop HP. revert c'.
  induction HP as [|x c Hx HP IH]; simpl; intros c'.
  - intros [= <-]. constructor.
  - destruct (decide (Matches q x)).
    + destruct (op x) as [x'|] eqn:Hx'; simpl; [|done].
      intros [= <-]. constructor; eauto.
    + destruct (update_one c q op) as [c''|]; simpl; [|done].
      intros [= <-]. constructor; eauto.
Qed.

Lemma insert_one_Return c o doc c' i :
  insert_one c o doc = Return (c', i) ->
  c' = c ++ [Doc o doc] /\ i = o /\ Forall (fun d => _id d <> o) c.
Proof.
  unfold insert_one. destruct (decide (Exists _ c)) as [|Hne]; [done|].
  intros [= <- <-]. repeat split.
  apply Forall_forall. intros d Hd Hid. apply Hne, Exists_exists. eauto.
Qed.

Lemma projects_wf_update db q op projects :
  (forall d d', op d = Return d' -> _id d' = _id d) ->
  (forall d d', is_Some (files_of d) -> op d = Return d' -> is_Some (files_of d')) ->
  projects_wf db ->
  update_one (project db) q op = Return projects ->
  projects_wf (MkDb (user db) projects (message db)).
Proof.
  intros Hid Hfiles [Hnd Hf] Hupd. split; simpl.
  - by rewrite (update_one_ids _ _ _ _ Hid Hupd).
  - by apply (update_one_Forall _ _ _ _ _ Hfiles Hf Hupd).
Qed.

Lemma set_op_files upd d d' :
  upd !! "files" = None ->
  is_Some (files_of d) -> set_op upd d = Return d' -> is_Some (files_of d').
Proof.
  intros Hupd Hd [= <-]. unfold files_of in *. simpl.
  by rewrite lookup_union_r.
Qed.

Lemma push_files_files m d d' :
  push_files m d = Return d' -> is_Some (files_of d').
Proof.
  unfold push_files, files_of.
  destruct (body d !! "files") as [[]|]; intros [= <-]; simpl;
    rewrite lookup_insert_eq; eauto.
Qed.

Lemma push_files_id m d d' : push_files m d = Return d' -> _id d' = _id d.
Proof.
  unfold push_files.
  by destruct (body d !! "files") as [[]|]; intros [= <-].
Qed.

(** Every handler that writes to the project collection leaves it
    well-formed, whatever its outcome. *)
Lemma create_project_wf db db' r now new_project_id new_message_id payload current_user :
  projects_wf db ->
  create_project now new_project_id new_message_id payload current_user db = (db', r) ->
  projects_wf db'.
Proof.
  intros [Hnd Hf]. unfold create_project. run.
  destruct (insert_one (project db) _ _) as [[projects pid]|] eqn:Hi1;
    [|by intros [= <- _]].
  apply insert_one_Return in Hi1 as (-> & -> & Hfresh). simpl.
  assert (Hwf : projects_wf (MkDb (user db) (project db ++ [Doc new_project_id
            (Project_model_dump (Some (str (_id current_user)))
               (ProjectCreateModel.name payload) (ProjectCreateModel.email payload)
               (ProjectCreateModel.phone payload)
               (ProjectCreateModel.selected_service payload)
               (ProjectCreateModel.description payload)
               (ProjectCreateModel.budget payload) "Pending" None [])])
            (message db))).
  { split; simpl.
    - rewrite fmap_app. apply NoDup_app. split; [done|]. split.
      + intros o Ho Ho'. apply list_elem_of_fmap in Ho as (d & -> & Hd).
        apply list_elem_of_singleton in Ho'. simpl in Ho'.
        rewrite Forall_forall in Hfresh. by apply (Hfresh d).
      + apply NoDup_singleton.
    - apply Forall_app. split; [done|]. constructor; [|constructor].
      unfold files_of, Project_model_dump. simpl. by simplify_map_eq. }
  destruct (insert_one (message db) _ _) as [[messages mid]|];
    intros [= <- _]; exact Hwf.
Qed.

Lemma upload_file_wf db db' r now project_id file current_user :
  projects_wf db ->
  upload_file now project_id file current_user db = (db', r) ->
  projects_wf db'.
Proof.
  intros Hwf. unfold upload_file. run.
  destruct (ObjectId project_id) as [oid|]; simpl; [|by intros [= <- _]].
  destruct (_ && _); [by intros [= <- _]|].
  destruct (update_one (project db) _ _) as [projects|] eqn:Hupd;
    intros [= <- _]; [|done].
  eapply projects_wf_update; [| |done|exact Hupd].
  - intros d d'. apply push_files_id.
  - intros d d' _. apply push_files_files.
Qed.

Lemma admin_update_status_wf db db' r project_id payload current_user :
  projects_wf db ->
  admin_update_status project_id payload current_user db = (db', r) ->
  projects_wf db'.
Proof.
  intros Hwf. unfold admin_update_status.
  destruct (is_admin current_user); simpl; [|by intros [= <- _]].
  run.
  destruct (ObjectId project_id) as [oid|]; simpl; [|by intros [= <- _]].
  destruct (update_one (project db) _ _) as [projects|] eqn:Hupd;
    intros [= <- _]; [|done].
  eapply projects_wf_update; [| |done|exact Hupd].
  - by intros d d' [= <-].
  - intros d d'. apply set_op_files.
    destruct (StatusUpdateModel.notes payload); by simplify_map_eq.
Qed.

(** ** Status updates *)

Lemma admin_update_status_forbidden db project_id payload current_user :
  is_admin current_user = false ->
  admin_update_status project_id payload current_user db = (db, Raise Forbidden).
Proof. intros H. unfold admin_update_status. by rewrite H. Qed.

(** C5, amended.  For a well-formed project id: an admin caller's
    [admin_update_status] succeeds, sets ["status"] whatever the project
    held, sets ["notes"] only when the payload carries notes (otherwise the
    stored value stays), and touches no other field and no other project;
    when no project has the id it still succeeds and the store is
    unchanged.  A caller who is not an admin gets [Forbidden], and the
    store is unchanged. *)
Theorem admin_update_status_spec (db : Db) (project_id : string) (oid : ObjectId_t)
    (payload : StatusUpdateModel.t) (current_user : document) :
  ObjectId project_id = Return oid ->
  if is_admin current_user then
    exists projects,
      admin_update_status project_id payload current_user db
      = (MkDb (user db) projects (message db),
         Return {["message" := VStr "Status updated"]})
      /\ match find_one (project db) (Query (Some oid) ∅) with
         | None => MkDb (user db) projects (message db) = db
         | Some p =>
             exists c1 c2 p',
               project db = c1 ++ p :: c2 /\ projects = c1 ++ p' :: c2
               /\ _id p' = _id p
               /\ body p' !! "status" = Some (VStr (StatusUpdateModel.status payload))
               /\ body p' !! "notes"
                  = match StatusUpdateModel.notes payload with
                    | Some n => Some (VStr n)
                    | None => body p !! "notes"
                    end
               /\ forall k, k <> "status" -> k <> "notes" -> body p' !! k = body p !! k
         end
  else admin_update_status project_id payload current_user db = (db, Raise Forbidden).
Proof.
  intros Hoid.
  destruct (is_admin current_user) eqn:Hadm;
    [|by apply admin_update_status_forbidden].
  unfold admin_update_status. rewrite Hadm. simpl.
  set (update := match StatusUpdateModel.notes payload with
                 | Some n => _ | None => _ end).
  run. rewrite Hoid.
  destruct (find_one (project db) (Query (Some oid) ∅)) as [p|] eqn:Hfind.
  - destruct (update_one_found _ _ _ (set_op update) Hfind) as (c1 & c2 & Hsplit & ->).
    simpl. eexists. split; [reflexivity|].
    exists c1, c2, (Doc (_id p) (update ∪ body p)).
    repeat split; try done; simpl; subst update.
    + destruct (StatusUpdateModel.notes payload); by simplify_map_eq.
    + destruct (StatusUpdateModel.notes payload) as [n|].
      * by simplify_map_eq.
      * rewrite lookup_union_r; [done|]. by simplify_map_eq.
    + intros k Hk1 Hk2. rewrite lookup_union_r; [done|].
      destruct (StatusUpdateModel.notes payload); by simplify_map_eq.
  - apply find_one_None in Hfind.
    rewrite (update_one_no_match _ _ _ Hfind). simpl.
    eexists. split; [reflexivity|]. by destruct db.
Qed.

(** ** File uploads *)

(** C9, amended.  An admin caller uploading to a well-formed id that no stored
    project has is not answered [NotFound]: the upload succeeds with the
    file's metadata and the store, every project's file list included, is
    what it was. *)
Theorem upload_file_admin_unknown_project (db : Db) (now : datetime)
    (project_id : string) (oid : ObjectId_t) (file : UploadFile.t)
    (current_user : document) :
  ObjectId project_id = Return oid ->
  is_admin current_user = true ->
  Forall (fun p => _id p <> oid) (project db) ->
  upload_file now project_id file current_user db
  = (db, Return (MkUploadResponse "File uploaded" (file_meta_of file now))).
Proof.
  intros Hoid Hadm Habs. unfold upload_file. run.
  rewrite Hoid, Hadm, andb_false_r.
  rewrite (update_one_id_absent _ _ _ Habs).
  by destruct db.
Qed.

(** X25.  For a well-formed id that no stored project has, [upload_file]
    answers a caller who is no admin [NotFound] and writes nothing. *)
Lemma upload_file_unknown_project_not_admin db now project_id oid file current_user :
  ObjectId project_id = Return oid ->
  is_admin current_user = false ->
  Forall (fun p => _id p <> oid) (project db) ->
  upload_file now project_id file current_user db = (db, Raise NotFound).
Proof.
  intros Hoid Hadm Habs. unfold upload_file. run.
  rewrite Hoid, Hadm.
  by rewrite (find_one_id_field_absent _ _ _ _ Habs).
Qed.

Lemma push_files_files_of m p fs :
  files_of p = Some fs ->
  push_files m p = Return (Doc (_id p) (<["files" := VArray (fs ++ [m])]> (body p))).
Proof.
  unfold files_of, push_files.
  destruct (body p !! "files") as [[]|]; intros [= <-]; done.
Qed.

(** C2, amended.  On a store with unique ids, for a well-formed id that a
    stored project [p] has and whose file list is an array: [upload_file]
    succeeds and appends the metadata to [p]'s file list, leaving every
    other project alone, exactly when the uploader owns [p] or is an admin;
    any other uploader is answered [NotFound] and the store is unchanged. *)
Theorem upload_file_stored_project (db : Db) (now : datetime)
    (project_id : string) (oid : ObjectId_t) (file : UploadFile.t)
    (current_user p : document) (fs : list FileMeta) :
  NoDup (_id <$> project db) ->
  ObjectId project_id = Return oid ->
  p ∈ project db ->
  _id p = oid ->
  files_of p = Some fs ->
  if bool_decide (body p !! "user_id" = Some (VStr (str (_id current_user))))
     || is_admin current_user
  then
    exists c1 c2,
      project db = c1 ++ p :: c2
      /\ upload_file now project_id file current_user db
         = (MkDb (user db)
                 (c1 ++ Doc (_id p)
                          (<["files" := VArray (fs ++ [file_meta_of file now])]> (body p))
                     :: c2)
                 (message db),
            Return (MkUploadResponse "File uploaded" (file_meta_of file now)))
  else upload_file now project_id file current_user db = (db, Raise NotFound).
Proof.
  intros Hnd Hoid Hin Hid Hfs.
  pose proof (find_one_id_elem _ _ Hnd Hin) as Hfind. rewrite Hid in Hfind.
  pose proof (find_one_id_field _ _ "user_id" (str (_id current_user)) _ Hnd Hfind) as Hown.
  destruct (update_one_found _ _ _ (push_files (file_meta_of file now)) Hfind)
    as (c1 & c2 & Hsplit & Hupd).
  rewrite (push_files_files_of _ _ _ Hfs) in Hupd. simpl in Hupd.
  unfold upload_file, file_meta_of in *. run.
  rewrite Hoid. simpl. rewrite Hown.
  destruct (decide (body p !! "user_id" = Some (VStr (str (_id current_user))))) as [Ho|Ho].
  - rewrite (bool_decide_eq_true_2 _ Ho). simpl. rewrite Hupd.
    by exists c1, c2.
  - rewrite (bool_decide_eq_false_2 _ Ho). simpl.
    destruct (is_admin current_user); simpl; [|done].
    rewrite Hupd. by exists c1, c2.
Qed.

(** ** Profile updates *)

Lemma profile_update_lookup payload k :
  profile_update payload !! k
  = if decide (k = "name") then VStr <$> ProfileUpdateModel.name payload
    else if decide (k = "phone") then VStr <$> ProfileUpdateModel.phone payload
    else None.
Proof.
  destruct payload as [[n|] [ph|]]; unfold profile_update; simpl;
    repeat case_decide; by simplify_map_eq.
Qed.

Lemma profile_update_empty payload :
  profile_update payload = ∅
  <-> ProfileUpdateModel.name payload = None /\ ProfileUpdateModel.phone payload = None.
Proof.
  split.
  - intros He.
    pose proof (profile_update_lookup payload "name") as Hn.
    pose proof (profile_update_lookup payload "phone") as Hp.
    rewrite He, lookup_empty in Hn, Hp. simpl in Hn, Hp.
    destruct (ProfileUpdateModel.name payload), (ProfileUpdateModel.phone payload);
      done.
  - destruct payload as [n ph]; simpl. by intros [-> ->].
Qed.

(** C7.  For a stored user, [update_me] rewrites that user's document only,
    and in it only the fields the payload carries: ["name"] and ["phone"]
    take the supplied value or keep the stored one, every other field,
    ["email"] and ["is_admin"] among them, keeps the stored one; with
    neither field supplied the store is unchanged. *)
Theorem update_me_spec (db : Db) (payload : ProfileUpdateModel.t)
    (current_user u : document) :
  find_one (user db) (Query (Some (_id current_user)) ∅) = Some u ->
  exists c1 c2 u',
    user db = c1 ++ u :: c2
    /\ update_me payload current_user db
       = (MkDb (c1 ++ u' :: c2) (project db) (message db), Return (profile u'))
    /\ _id u' = _id u
    /\ body u' !! "name"
       = match ProfileUpdateModel.name payload with
         | Some n => Some (VStr n)
         | None => body u !! "name"
         end
    /\ body u' !! "phone"
       = match ProfileUpdateModel.phone payload with
         | Some ph => Some (VStr ph)
         | None => body u !! "phone"
         end
    /\ (forall k, k <> "name" -> k <> "phone" -> body u' !! k = body u !! k)
    /\ body u' !! "email" = body u !! "email"
    /\ body u' !! "is_admin" = body u !! "is_admin"
    /\ (ProfileUpdateModel.name payload = None ->
        ProfileUpdateModel.phone payload = None ->
        MkDb (c1 ++ u' :: c2) (project db) (message db) = db).
Proof.
  intros Hfind.
  destruct (find_one_Some _ _ _ Hfind) as (c1 & c2 & Hsplit & Hm & Hc1).
  set (update := profile_update payload).
  set (u' := Doc (_id u) (update ∪ body u)).
  assert (Hlook : forall k, body u' !! k
                   = match update !! k with Some v => Some v | None => body u !! k end).
  { intros k. simpl. destruct (update !! k) as [v|] eqn:Hk.
    - by apply lookup_union_Some_l.
    - by apply lookup_union_r. }
  assert (Hm' : Matches (Query (Some (_id current_user)) ∅) u').
  { apply Matches_id. by apply Matches_id in Hm. }
  exists c1, c2, u'. split; [done|]. split.
  - unfold update_me. fold update.
    destruct (decide (update = ∅)) as [He|He].
    + rewrite bool_decide_eq_false_2 by (intros Hne; by apply Hne). run.
      assert (u' = u) as Hu.
      { unfold u'. rewrite He, (left_id_L ∅ (∪)). by destruct u. }
      rewrite Hfind, Hu, <- Hsplit. by destruct db.
    + rewrite bool_decide_eq_true_2 by done. run.
      rewrite Hsplit, (update_one_hit _ _ _ _ _ Hc1 Hm). simpl.
      fold u'. by rewrite (find_one_app_hit _ _ _ _ Hc1 Hm').
  - split; [done|].
    repeat split.
    + rewrite Hlook. unfold update. rewrite profile_update_lookup. simpl.
      by destruct (ProfileUpdateModel.name payload).
    + rewrite Hlook. unfold update. rewrite profile_update_lookup. simpl.
      by destruct (ProfileUpdateModel.phone payload).
    + intros k Hk1 Hk2. rewrite Hlook. unfold update.
      rewrite profile_update_lookup. by rewrite !decide_False.
    + rewrite Hlook. unfold update. by rewrite profile_update_lookup.
    + rewrite Hlook. unfold update. by rewrite profile_update_lookup.
    + intros Hn Hp.
      assert (update = ∅) as He by (by apply profile_update_empty).
      assert (u' = u) as ->.
      { unfold u'. rewrite He, (left_id_L ∅ (∪)). by destruct u. }
      rewrite <- Hsplit. by destruct db.
Qed.

(** ** Project creation *)

Lemma insert_one_fresh c o doc :
  Forall (fun d => _id d <> o) c ->
  insert_one c o doc = Return (c ++ [Doc o doc], o).
Proof.
  intros H. unfold insert_one. rewrite decide_False; [done|].
  rewrite Exists_exists. intros (d & Hd & Hid).
  rewrite Forall_forall in H. by apply (H d).
Qed.

(** X24.  On a stored project and with a fresh message id, [send_message]
    appends one message and nothing else, and derives the role of the
    sender from the admin flag. *)
Lemma send_message_sender_role db now mid project_id oid payload current_user p :
  ObjectId project_id = Return oid ->
  find_one (project db) (Query (Some oid) ∅) = Some p ->
  Forall (fun m => _id m <> mid) (message db) ->
  exists msg,
    send_message now mid project_id payload current_user db
    = (MkDb (user db) (project db) (message db ++ [msg]),
       Return {["message" := VStr "Sent"]})
    /\ body msg !! "sender_role"
       = Some (VStr (if is_admin current_user then "admin" else "customer")).
Proof.
  intros Hoid Hfind Hfresh. unfold send_message. run.
  rewrite Hoid, Hfind. simpl.
  rewrite (insert_one_fresh _ _ _ Hfresh).
  eexists. split; [reflexivity|]. simpl.
  unfold Message_model_dump. by simplify_map_eq.
Qed.

(** C1, on the code.  When an admin creates a project, one project and one
    message are appended; the message carries the new project's id, the
    text "New project submitted" and the creator's id, and its sender role
    is "customer": not the role the creator's admin flag gives. *)
Theorem create_project_admin_sender_role (db : Db) (now : datetime)
    (new_project_id new_message_id : ObjectId_t)
    (payload : ProjectCreateModel.t) (current_user : document) :
  is_admin current_user = true ->
  Forall (fun p => _id p <> new_project_id) (project db) ->
  Forall (fun m => _id m <> new_message_id) (message db) ->
  exists proj msg,
    create_project now new_project_id new_message_id payload current_user db
    = (MkDb (user db) (project db ++ [proj]) (message db ++ [msg]),
       Return {["_id" := VStr (str new_project_id)]})
    /\ _id proj = new_project_id
    /\ body msg !! "project_id" = Some (VStr (str new_project_id))
    /\ body msg !! "content" = Some (VStr "New project submitted")
    /\ body msg !! "sender_id" = Some (VStr (str (_id current_user)))
    /\ body msg !! "sender_role" = Some (VStr "customer")
    /\ body msg !! "sender_role"
       <> Some (VStr (if is_admin current_user then "admin" else "customer")).
Proof.
  intros Hadm Hp Hm. unfold create_project. run.
  rewrite (insert_one_fresh _ _ _ Hp). simpl.
  rewrite (insert_one_fresh _ _ _ Hm).
  eexists _, _. split; [reflexivity|]. simpl. rewrite Hadm.
  repeat split; by simplify_map_eq.
Qed.

(** X27.  The two writes of [create_project] are separate: when the second
    one fails, the project stays stored without its message. *)
Lemma create_project_not_atomic db now new_project_id new_message_id payload
    current_user :
  Forall (fun p => _id p <> new_project_id) (project db) ->
  Exists (fun m => _id m = new_message_id) (message db) ->
  exists proj,
    create_project now new_project_id new_message_id payload current_user db
    = (MkDb (user db) (project db ++ [proj]) (message db), Raise DuplicateKeyError).
Proof.
  intros Hp Hm. unfold create_project. run.
  rewrite (insert_one_fresh _ _ _ Hp). simpl.
  unfold insert_one. rewrite decide_True by done.
  eexists. reflexivity.
Qed.

(** After [create_project], the messages of the new project are the
    initial message alone, provided no stored message already carried the
    new id. *)
Lemma create_project_first_message db db' r now new_project_id new_message_id
    payload current_user :
  Forall (fun m => body m !! "project_id" <> Some (VStr (str new_project_id)))
         (message db) ->
  create_project now new_project_id new_message_id payload current_user db
  = (db', Return r) ->
  exists msg,
    find (message db') (Query None {["project_id" := str new_project_id]}) = [msg]
    /\ body msg !! "content" = Some (VStr "New project submitted")
    /\ body msg !! "sender_id" = Some (VStr (str (_id current_user))).
Proof.
  intros Hold. unfold create_project. run.
  destruct (insert_one (project db) _ _) as [[projects pid]|] eqn:Hi1; [|done].
  simpl.
  destruct (insert_one (message db) _ _) as [[messages mid]|] eqn:Hi2; [|done].
  intros [= <- _].
  unfold insert_one in Hi1, Hi2.
  destruct (decide (Exists _ (project db))); [done|]. injection Hi1 as <- <-.
  destruct (decide (Exists _ (message db))); [done|]. injection Hi2 as <- <-.
  eexists. simpl. split.
  - unfold find. rewrite filter_app.
    fold (find (message db) (Query None {["project_id" := str new_project_id]})).
    rewrite find_no_match.
    2:{ eapply Forall_impl; [exact Hold|].
        intros m Hm [_ Hq]. simpl in Hq. rewrite map_Forall_singleton in Hq. done. }
    simpl. rewrite filter_cons_True, filter_nil; [done|].
    split; [by intros ? [=]|]. simpl. rewrite map_Forall_singleton.
    by simplify_map_eq.
  - split; by simplify_map_eq.
Qed.

(** ** Passwords and login *)

Section Login.

Variable JWT_SECRET : string.
Variable hs256_sign : string -> string -> gmap string value -> string.
Variable bcrypt_verify : string -> string -> result bool.

Lemma verify_password_unidentified password h :
  bcrypt_identify h = false ->
  verify_password bcrypt_verify password (VStr h) = Raise UnknownHashError.
Proof. intros H. unfold verify_password, pwd_context_verify. by rewrite H. Qed.

(** [login] by cases on the lookup and on what [verify_password] does. *)
Lemma login_cases db now payload :
  login JWT_SECRET hs256_sign bcrypt_verify db now payload
  = match find_one (user db) (Query None {["email" := LoginModel.email payload]}) with
    | None => Raise InvalidCredentials
    | Some u =>
        match verify_password bcrypt_verify (LoginModel.password payload)
                (get (body u) "password_hash" (VStr "")) with
        | Raise e => Raise e
        | Return false => Raise InvalidCredentials
        | Return true =>
            Return (MkLoginResponse
                      (create_access_token JWT_SECRET hs256_sign now
                         {["sub" := VStr (str (_id u))]} None)
                      "bearer"
                      (<["_id" := VStr (str (_id u))]>
                      (<["name" := get_none (body u) "name"]>
                      (<["email" := get_none (body u) "email"]>
                      (<["is_admin" := get (body u) "is_admin" (VBool false)]> ∅)))))
        end
    end.
Proof.
  unfold login.
  destruct (find_one _ _) as [u|]; [|done].
  destruct (verify_password _ _ _) as [[]|]; done.
Qed.

(** X23.  [login] succeeds exactly when a user has the email and
    [verify_password] answers [True] on the stored hash. *)
Lemma login_succeeds_iff db now payload :
  (exists r, login JWT_SECRET hs256_sign bcrypt_verify db now payload = Return r)
  <-> exists u,
        find_one (user db) (Query None {["email" := LoginModel.email payload]}) = Some u
        /\ verify_password bcrypt_verify (LoginModel.password payload)
             (get (body u) "password_hash" (VStr "")) = Return true.
Proof.
  rewrite login_cases.
  destruct (find_one _ _) as [u|].
  - destruct (verify_password _ _ _) as [[]|] eqn:Hv.
    + split; eauto.
    + split; [by intros [? [=]]|]. intros (u' & [= <-] & Hv'). congruence.
    + split; [by intros [? [=]]|]. intros (u' & [= <-] & Hv'). congruence.
  - split; [by intros [? [=]]|]. by intros (? & [=] & _).
Qed.

(** No user with the email, or a stored hash on which [verify_password]
    answers [False]: the same [InvalidCredentials]. *)
Lemma login_invalid_credentials db now payload :
  match find_one (user db) (Query None {["email" := LoginModel.email payload]}) with
  | None => True
  | Some u => verify_password bcrypt_verify (LoginModel.password payload)
                (get (body u) "password_hash" (VStr "")) = Return false
  end ->
  login JWT_SECRET hs256_sign bcrypt_verify db now payload = Raise InvalidCredentials.
Proof.
  rewrite login_cases.
  destruct (find_one _ _) as [u|]; [|done]. by intros ->.
Qed.

(** C3, on the code.  [verify_password] does not answer [False] on a hash
    that is no bcrypt hash: on the empty string (what [login] passes when
    the stored document has no hash) and on any other unidentified
    string it raises [UnknownHashError], whatever the password. *)
Theorem verify_password_raises_on_malformed_hash (password : string) :
  verify_password bcrypt_verify password (VStr "") = Raise UnknownHashError
  /\ verify_password bcrypt_verify password (VStr "not-a-bcrypt-hash")
     = Raise UnknownHashError.
Proof. split; by rewrite verify_password_unidentified. Qed.

(** C4, on the code.  When the user with the email has a stored hash that
    is no bcrypt hash, or none, [login] does not fail with
    [InvalidCredentials]: the exception of [verify_password] leaves the
    handler. *)
Theorem login_raises_on_malformed_hash (db : Db) (now : datetime)
    (payload : LoginModel.t) (u : document) (h : string) :
  find_one (user db) (Query None {["email" := LoginModel.email payload]}) = Some u ->
  get (body u) "password_hash" (VStr "") = VStr h ->
  bcrypt_identify h = false ->
  exists e,
    login JWT_SECRET hs256_sign bcrypt_verify db now payload = Raise e
    /\ e <> InvalidCredentials
    /\ (e = ValueError "no hash specified" \/ e = UnknownHashError).
Proof.
  intros Hfind Hhash Hid.
  rewrite login_cases, Hfind, Hhash, (verify_password_unidentified _ _ Hid).
  eexists. split; [reflexivity|]. split; [discriminate|by right].
Qed.

End Login.

(** ** Listing projects for admins *)

Lemma filter_holds_supplied f k p :
  filter_holds f k p
  <-> match supplied f with
      | Some s => body p !! k = Some (VStr s)
      | None => True
      end.
Proof.
  unfold filter_holds, supplied. destruct f as [s|]; [|done].
  destruct (String.eqb s "") eqn:E.
  - apply String.eqb_eq in E. tauto.
  - apply String.eqb_neq in E. tauto.
Qed.

Lemma Matches_list_filters service status p :
  Matches
    (Query None
       (let q : gmap string string := ∅ in
        let q := match supplied service with
                 | Some s => <["selected_service" := s]> q
                 | None => q
                 end in
        match supplied status with
        | Some s => <["status" := s]> q
        | None => q
        end)) p
  <-> filter_holds service "selected_service" p /\ filter_holds status "status" p.
Proof.
  rewrite !filter_holds_supplied. unfold Matches. simpl.
  set (P := fun (k s : string) => body p !! k = Some (VStr s)).
  assert (He : map_Forall P (∅ : gmap string string) <-> True)
    by (split; [done | intros _; apply map_Forall_empty]).
  assert (Hq : forall (Q : Prop),
             ((forall o : ObjectId_t, None = Some o -> _id p = o) /\ Q) <-> Q)
    by (intros Q; split; [by intros [_ ?] | by split]).
  rewrite Hq.
  destruct (supplied service) as [s1|], (supplied status) as [s2|].
  - rewrite map_Forall_insert by by simplify_map_eq.
    rewrite map_Forall_insert by by simplify_map_eq.
    rewrite He. unfold P. tauto.
  - rewrite map_Forall_insert by by simplify_map_eq.
    rewrite He. unfold P. tauto.
  - rewrite map_Forall_insert by by simplify_map_eq.
    rewrite He. unfold P. tauto.
  - rewrite He. tauto.
Qed.

Lemma admin_list_projects_forbidden db service status current_user :
  is_admin current_user = false ->
  admin_list_projects db service status current_user = Raise Forbidden.
Proof. intros H. unfold admin_list_projects. by rewrite H. Qed.

(** The documents [create_project] stores carry no ["created_at"]: the sort
    key of [admin_list_projects] is missing from every one of them. *)
Lemma Project_model_dump_no_created_at user_id name email phone service
    description budget status notes files :
  Project_model_dump user_id name email phone service description budget
                     status notes files !! "created_at" = None.
Proof. unfold Project_model_dump. by simplify_map_eq. Qed.

(** C6, amended.  A caller who is not an admin gets [Forbidden]; an admin
    gets exactly the stored projects that satisfy every filter that is
    supplied and not the empty string (an empty filter is ignored), each
    once, with its id as a string. *)
Theorem admin_list_projects_spec (db : Db) (service status : option string)
    (current_user : document) :
  if is_admin current_user then
    exists items,
      admin_list_projects db service status current_user = Return items
      /\ items ≡ₚ stringify_id
                   <$> filter (fun p => filter_holds service "selected_service" p
                                        /\ filter_holds status "status" p)
                              (project db)
  else admin_list_projects db service status current_user = Raise Forbidden.
Proof.
  destruct (is_admin current_user) eqn:Hadm;
    [|by apply admin_list_projects_forbidden].
  unfold admin_list_projects. rewrite Hadm. simpl.
  eexists. split; [reflexivity|].
  rewrite sort_Permutation. unfold find.
  erewrite list_filter_iff; [reflexivity|].
  intros p. apply Matches_list_filters.
Qed.

(** ** Tokens *)

Section Tokens.

Variable JWT_SECRET : string.
Variable hs256_sign : string -> string -> gmap string value -> string.
Variable int_str : string -> option Z.

Lemma jwt_decode_signed claims now :
  jwt_decode hs256_sign int_str
             (JWS JWT_ALG claims (hs256_sign JWT_SECRET JWT_ALG claims))
             JWT_SECRET [JWT_ALG] now
  = (_ ← validate_claims int_str claims now; Return claims).
Proof.
  unfold jwt_decode.
  rewrite bool_decide_eq_true_2 by apply list_elem_of_here.
  by rewrite String.eqb_refl.
Qed.

(** The claims of a token of this API, a subject and an expiry, pass every
    check but that of the expiry. *)
Lemma validate_claims_sub_exp sub exp now :
  validate_claims int_str (<["exp" := VInt exp]> {["sub" := VStr sub]}) now
  = if seconds_leb exp now then Raise ExpiredSignatureError else Return ().
Proof.
  unfold validate_claims, validate_iat, validate_nbf, validate_exp, validate_aud.
  simplify_map_eq. simpl.
  by destruct (seconds_leb exp now).
Qed.

(** The token [create_access_token] issues for a subject, with the
    lifetime of seven days. *)
Lemma create_access_token_sub now sub :
  create_access_token JWT_SECRET hs256_sign now {["sub" := VStr sub]} None
  = let claims := <["exp" := VInt (timegm (now + minutes ACCESS_TOKEN_EXPIRE_MINUTES))]>
                    {["sub" := VStr sub]} in
    JWS JWT_ALG claims (hs256_sign JWT_SECRET JWT_ALG claims).
Proof.
  unfold create_access_token, jwt_encode, timegm_claim.
  simplify_map_eq. simpl. by rewrite insert_insert_eq.
Qed.

(** Decoding it: expired from the second of its expiry on, and the claims
    with the subject before. *)
Lemma jwt_decode_issued issued now sub :
  jwt_decode hs256_sign int_str
    (create_access_token JWT_SECRET hs256_sign issued {["sub" := VStr sub]} None)
    JWT_SECRET [JWT_ALG] now
  = if seconds_leb (timegm (issued + minutes ACCESS_TOKEN_EXPIRE_MINUTES)) now
    then Raise ExpiredSignatureError
    else Return (<["exp" := VInt (timegm (issued + minutes ACCESS_TOKEN_EXPIRE_MINUTES))]>
                   {["sub" := VStr sub]}).
Proof.
  rewrite create_access_token_sub. cbv zeta.
  rewrite jwt_decode_signed, validate_claims_sub_exp.
  by destruct (seconds_leb _ now).
Qed.

Lemma get_current_user_bad_signature db now alg claims sig :
  sig <> hs256_sign JWT_SECRET alg claims ->
  get_current_user JWT_SECRET hs256_sign int_str db now (JWS alg claims sig) = Raise TokenInvalid.
Proof.
  intros Hsig. unfold get_current_user, jwt_decode.
  destruct (bool_decide (alg ∈ [JWT_ALG])); simpl; [|done].
  apply String.eqb_neq in Hsig. by rewrite Hsig.
Qed.

(** X22.  Whatever goes wrong in [get_current_user], the caller sees one
    of two answers; the details "Invalid token" and "User not found" raised
    inside the [try] are replaced by the last handler. *)
Lemma get_current_user_errors db now tok e :
  get_current_user JWT_SECRET hs256_sign int_str db now tok = Raise e ->
  e = TokenExpired \/ e = TokenInvalid.
Proof.
  unfold get_current_user, try_except.
  destruct (_ ≫= _) as [u|e']; [done|].
  intros [= <-]. destruct e'; auto.
Qed.

(** C8, amended.  A token issued at [issued] for a user id, with the
    lifetime of seven days, expires at the whole second at or before
    [issued] plus the lifetime.  Decoded before that second it yields the
    claims with the original subject, and [get_current_user] the stored
    user with that id; decoded from that second on it is refused with
    [TokenExpired].  A tampered token, one whose signature does not verify
    or that does not parse, is refused with [TokenInvalid]. *)
Theorem issue_decode_round_trip (db : Db) (user_id : string)
    (issued now : datetime) :
  let ttl := minutes ACCESS_TOKEN_EXPIRE_MINUTES in
  let expiry := timegm (issued + ttl) * 1000 in
  let tok := create_access_token JWT_SECRET hs256_sign issued
               {["sub" := VStr user_id]} None in
  (issued + ttl - 1000 < expiry <= issued + ttl)
  /\ (if decide (now < expiry) then
        (exists claims,
           jwt_decode hs256_sign int_str tok JWT_SECRET [JWT_ALG] now = Return claims
           /\ claims !! "sub" = Some (VStr user_id))
        /\ (forall oid u,
              ObjectId user_id = Return oid ->
              find_one (user db) (Query (Some oid) ∅) = Some u ->
              get_current_user JWT_SECRET hs256_sign int_str db now tok = Return u)
      else
        jwt_decode hs256_sign int_str tok JWT_SECRET [JWT_ALG] now
        = Raise ExpiredSignatureError
        /\ get_current_user JWT_SECRET hs256_sign int_str db now tok
           = Raise TokenExpired)
  /\ (forall alg claims sig,
        sig <> hs256_sign JWT_SECRET alg claims ->
        get_current_user JWT_SECRET hs256_sign int_str db now (JWS alg claims sig)
        = Raise TokenInvalid)
  /\ (forall raw,
        get_current_user JWT_SECRET hs256_sign int_str db now (Malformed raw)
        = Raise TokenInvalid).
Proof.
  intros ttl expiry tok.
  split; [|split; [|split; [intros; by apply get_current_user_bad_signature | done]]].
  - unfold expiry, timegm.
    pose proof (Z.mod_pos_bound (issued + ttl) 1000 ltac:(lia)).
    pose proof (Z.div_mod (issued + ttl) 1000 ltac:(lia)). lia.
  - pose proof (jwt_decode_issued issued now user_id) as Hdec.
    fold ttl tok in Hdec. unfold seconds_leb in Hdec. fold expiry in Hdec.
    destruct (decide (now < expiry)) as [Hin|Hout].
    + assert ((expiry <=? now) = false) as Hle by (apply Z.leb_gt; lia).
      rewrite Hle in Hdec. split.
      * eexists. split; [exact Hdec|]. by simplify_map_eq.
      * intros oid u Hoid Hu. unfold get_current_user. rewrite Hdec. simpl.
        unfold get_none, get. rewrite lookup_insert_ne by done.
        rewrite lookup_singleton_eq. simpl. rewrite Hoid. simpl. by rewrite Hu.
    + assert ((expiry <=? now) = true) as Hle by (apply Z.leb_le; lia).
      rewrite Hle in Hdec. split; [exact Hdec|].
      unfold get_current_user. by rewrite Hdec.
Qed.

End Tokens.

(** ** Routes *)

(** C10.  [routes] has [GET /schema], once, and the entry needs no user;
    the documented table has no such row; and the handler answers with the
    source text of the schemas module, whoever calls. *)
Theorem get_schema_route_undocumented :
  Route "GET" "/schema" false ∈ routes
  /\ filter (fun r => http_method r = "GET" /\ path r = "/schema") routes
     = [Route "GET" "/schema" false]
  /\ (("GET", "/schema") ∉ documented_routes)
  /\ forall src, get_schema src !! "schemas" = Some (VStr src).
Proof.
  split; [|split; [|split]].
  - apply (bool_decide_unpack _). by vm_compute.
  - by vm_compute.
  - apply (bool_decide_unpack _). by vm_compute.
  - intros src. unfold get_schema. by rewrite lookup_singleton_eq.
Qed.

(** ** The theorems on the sample store *)

Lemma admin_update_status_spec_witness :
  ObjectId "65b000000000000000000001" = Return Sample.p1_id
  /\ exists projects,
       admin_update_status "65b000000000000000000001"
         (StatusUpdateModel.mk "Done" None) Sample.admin Sample.db
       = (MkDb (user Sample.db) projects (message Sample.db),
          Return {["message" := VStr "Status updated"]}).
Proof.
  split; [reflexivity|].
  pose proof (admin_update_status_spec Sample.db "65b000000000000000000001"
                Sample.p1_id (StatusUpdateModel.mk "Done" None) Sample.admin
                eq_refl) as H.
  assert (Ha : is_admin Sample.admin = true) by (by vm_compute).
  rewrite Ha in H. destruct H as (projects & H & _). exists projects. exact H.
Defined.

Lemma upload_file_admin_unknown_project_witness :
  is_admin Sample.admin = true
  /\ upload_file 1700000000 "65b000000000000000000002" Sample.logo Sample.admin Sample.db
     = (Sample.db,
        Return (MkUploadResponse "File uploaded" (file_meta_of Sample.logo 1700000000))).
Proof.
  split; [by vm_compute|].
  apply (upload_file_admin_unknown_project _ _ _ Sample.p2_id).
  - reflexivity.
  - by vm_compute.
  - apply (bool_decide_unpack _). by vm_compute.
Defined.

(** C2 as stated fails for an admin and an id no project has: the upload
    succeeds, and nothing is appended anywhere. *)
Lemma upload_file_admin_appends_nowhere :
  is_admin Sample.admin = true
  /\ Forall (fun p => _id p <> Sample.p2_id) (project Sample.db)
  /\ upload_file 1700000000 "65b000000000000000000002" Sample.logo Sample.admin Sample.db
     = (Sample.db,
        Return (MkUploadResponse "File uploaded" (file_meta_of Sample.logo 1700000000)))
  /\ Forall (fun p => files_of p = Some []) (project Sample.db).
Proof.
  split; [by vm_compute|]. split; [|split].
  - apply (bool_decide_unpack _). by vm_compute.
  - by vm_compute.
  - apply (bool_decide_unpack _). by vm_compute.
Qed.

(** The scenario of the specification: the owner succeeds, a second
    customer is answered [NotFound], an admin succeeds. *)
Lemma upload_file_stored_project_witness :
  (exists c1 c2,
     project Sample.db = c1 ++ Sample.p1 :: c2
     /\ upload_file 1700000000 "65b000000000000000000001" Sample.logo Sample.alice Sample.db
        = (MkDb (user Sample.db)
                (c1 ++ Doc (_id Sample.p1)
                         (<["files" := VArray [file_meta_of Sample.logo 1700000000]]>
                            (body Sample.p1)) :: c2)
                (message Sample.db),
           Return (MkUploadResponse "File uploaded" (file_meta_of Sample.logo 1700000000))))
  /\ upload_file 1700000000 "65b000000000000000000001" Sample.logo Sample.bob Sample.db
     = (Sample.db, Raise NotFound)
  /\ (exists c1 c2,
        project Sample.db = c1 ++ Sample.p1 :: c2
        /\ upload_file 1700000000 "65b000000000000000000001" Sample.logo Sample.admin Sample.db
           = (MkDb (user Sample.db)
                   (c1 ++ Doc (_id Sample.p1)
                            (<["files" := VArray [file_meta_of Sample.logo 1700000000]]>
                               (body Sample.p1)) :: c2)
                   (message Sample.db),
              Return (MkUploadResponse "File uploaded" (file_meta_of Sample.logo 1700000000)))).
Proof.
  assert (Hnd : NoDup (_id <$> project Sample.db))
    by (apply (bool_decide_unpack _); by vm_compute).
  assert (Hin : Sample.p1 ∈ project Sample.db) by apply list_elem_of_here.
  split; [|split].
  - pose proof (upload_file_stored_project Sample.db 1700000000
                  "65b000000000000000000001" Sample.p1_id Sample.logo
                  Sample.alice Sample.p1 [] Hnd eq_refl Hin eq_refl eq_refl) as H.
    assert (Hc : bool_decide (body Sample.p1 !! "user_id"
                              = Some (VStr (str (_id Sample.alice))))
                 || is_admin Sample.alice = true) by (by vm_compute).
    rewrite Hc in H. exact H.
  - pose proof (upload_file_stored_project Sample.db 1700000000
                  "65b000000000000000000001" Sample.p1_id Sample.logo
                  Sample.bob Sample.p1 [] Hnd eq_refl Hin eq_refl eq_refl) as H.
    assert (Hc : bool_decide (body Sample.p1 !! "user_id"
                              = Some (VStr (str (_id Sample.bob))))
                 || is_admin Sample.bob = false) by (by vm_compute).
    rewrite Hc in H. exact H.
  - pose proof (upload_file_stored_project Sample.db 1700000000
                  "65b000000000000000000001" Sample.p1_id Sample.logo
                  Sample.admin Sample.p1 [] Hnd eq_refl Hin eq_refl eq_refl) as H.
    assert (Hc : bool_decide (body Sample.p1 !! "user_id"
                              = Some (VStr (str (_id Sample.admin))))
                 || is_admin Sample.admin = true) by (by vm_compute).
    rewrite Hc in H. exact H.
Defined.

Lemma update_me_spec_witness :
  exists c1 c2 u',
    user Sample.db = c1 ++ Sample.alice :: c2
    /\ update_me (ProfileUpdateModel.mk None (Some "555-0199")) Sample.alice Sample.db
       = (MkDb (c1 ++ u' :: c2) (project Sample.db) (message Sample.db),
          Return (profile u'))
    /\ body u' !! "name" = Some (VStr "Alice")
    /\ body u' !! "phone" = Some (VStr "555-0199")
    /\ body u' !! "email" = Some (VStr "alice@example.com")
    /\ body u' !! "is_admin" = Some (VBool false).
Proof.
  assert (Hfind : find_one (user Sample.db) (Query (Some (_id Sample.alice)) ∅)
                  = Some Sample.alice) by (by vm_compute).
  destruct (update_me_spec Sample.db (ProfileUpdateModel.mk None (Some "555-0199"))
              Sample.alice Sample.alice Hfind)
    as (c1 & c2 & u' & H1 & H2 & _ & Hn & Hp & _ & He & Ha & _).
  exists c1, c2, u'.
  split; [exact H1|]. split; [exact H2|].
  split; [rewrite Hn; by vm_compute|]. split; [exact Hp|].
  split; [rewrite He | rewrite Ha]; by vm_compute.
Defined.

Lemma create_project_admin_sender_role_witness :
  is_admin Sample.admin = true
  /\ exists proj msg,
       create_project 1700000000 Sample.p2_id Sample.m1_id
         Sample.new_project Sample.admin Sample.db
       = (MkDb (user Sample.db) (project Sample.db ++ [proj])
               (message Sample.db ++ [msg]),
          Return {["_id" := VStr (str Sample.p2_id)]})
       /\ body msg !! "sender_role" = Some (VStr "customer").
Proof.
  split; [by vm_compute|].
  destruct (create_project_admin_sender_role Sample.db 1700000000 Sample.p2_id
              Sample.m1_id Sample.new_project Sample.admin)
    as (proj & msg & H & _ & _ & _ & _ & Hrole & _).
  - by vm_compute.
  - apply (bool_decide_unpack _). by vm_compute.
  - apply (bool_decide_unpack _). by vm_compute.
  - exists proj, msg. split; [exact H | exact Hrole].
Defined.

Lemma login_raises_on_malformed_hash_witness :
  exists e,
    login "dev-secret" Sample.sign Sample.check Sample.db 1700000000
      (LoginModel.mk "carol@example.com" "plaintext")
    = Raise e
    /\ e <> InvalidCredentials.
Proof.
  destruct (login_raises_on_malformed_hash "dev-secret" Sample.sign Sample.check
              Sample.db 1700000000 (LoginModel.mk "carol@example.com" "plaintext")
              Sample.carol "plaintext")
    as (e & H & Hne & _).
  - by vm_compute.
  - by vm_compute.
  - by vm_compute.
  - exists e. split; [exact H | exact Hne].
Defined.

(** C6 as stated fails on an empty filter: [status=""] is supplied, no
    stored project has that status, and the pending project is listed. *)
Lemma admin_list_projects_ignores_empty_filter :
  is_admin Sample.admin = true
  /\ admin_list_projects Sample.db None (Some "") Sample.admin
     = Return [stringify_id Sample.p1]
  /\ body Sample.p1 !! "status" = Some (VStr "Pending").
Proof. repeat split; by vm_compute. Qed.

(** C5 as stated fails for a [project_id] that is no well-formed id: an
    admin's call raises [InvalidId] instead of returning success. *)
Lemma admin_update_status_malformed_id :
  is_admin Sample.admin = true
  /\ admin_update_status "nonexistent_id" (StatusUpdateModel.mk "Done" None)
       Sample.admin Sample.db
     = (Sample.db, Raise InvalidId).
Proof. split; by vm_compute. Qed.

(** C9 as stated fails for a [project_id] that is no well-formed id, which
    matches no stored project either: an admin's upload raises [InvalidId]
    instead of returning success. *)
Lemma upload_file_admin_malformed_id :
  is_admin Sample.admin = true
  /\ Forall (fun p => ObjectId "nonexistent_id" <> Return (_id p)) (project Sample.db)
  /\ upload_file 1700000000000 "nonexistent_id" Sample.logo Sample.admin Sample.db
     = (Sample.db, Raise InvalidId).
Proof.
  split; [by vm_compute|]. split; [|by vm_compute].
  repeat constructor. by vm_compute.
Qed.

(** A token issued at 1000.9 s: accepted until 605799.999 s, and expired
    from 605800 s on. *)
Lemma issue_decode_round_trip_witness :
  get_current_user "dev-secret" Sample.sign Sample.int_str Sample.db 605799999
    (create_access_token "dev-secret" Sample.sign 1000900
       {["sub" := VStr (str Sample.alice_id)]} None)
  = Return Sample.alice
  /\ get_current_user "dev-secret" Sample.sign Sample.int_str Sample.db 605800000
       (create_access_token "dev-secret" Sample.sign 1000900
          {["sub" := VStr (str Sample.alice_id)]} None)
     = Raise TokenExpired.
Proof.
  split.
  - destruct (issue_decode_round_trip "dev-secret" Sample.sign Sample.int_str
                Sample.db (str Sample.alice_id) 1000900 605799999) as (_ & H & _).
    rewrite decide_True in H by (by vm_compute).
    destruct H as [_ H]. apply (H Sample.alice_id); by vm_compute.
  - destruct (issue_decode_round_trip "dev-secret" Sample.sign Sample.int_str
                Sample.db (str Sample.alice_id) 1000900 605800000) as (_ & H & _).
    rewrite decide_False in H by (by vm_compute).
    exact (proj2 H).
Defined.

(** C8 as stated fails inside the ttl window: a token issued at 1000.9 s
    with the lifetime of seven days is decoded at 605800.5 s, before
    1000.9 s plus seven days, and is refused as expired. *)
Lemma token_expires_within_ttl_window :
  605800500 < 1000900 + minutes ACCESS_TOKEN_EXPIRE_MINUTES
  /\ jwt_decode Sample.sign Sample.int_str
       (create_access_token "dev-secret" Sample.sign 1000900
          {["sub" := VStr (str Sample.alice_id)]} None)
       "dev-secret" [JWT_ALG] 605800500
     = Raise ExpiredSignatureError
  /\ get_current_user "dev-secret" Sample.sign Sample.int_str Sample.db 605800500
       (create_access_token "dev-secret" Sample.sign 1000900
          {["sub" := VStr (str Sample.alice_id)]} None)
     = Raise TokenExpired.
Proof. split; [by vm_compute|]. split; by vm_compute. Qed.

(** ** The bearer header *)

Lemma lower_ascii_space a : lower_ascii a = " "%char -> a = " "%char.
Proof.
  destruct a as [[] [] [] [] [] [] [] []]; vm_compute; congruence.
Qed.

Lemma substring_all s : substring 0 (String.length s) s = s.
Proof. induction s as [|a s IH]; simpl; [done|]. by rewrite IH. Qed.

Lemma split_once_no_sep_then_sep sep h t :
  string_forallb (fun c => negb (Ascii.eqb c sep)) h = true ->
  split_once sep (h ++ String sep t) = [h; t].
Proof.
  induction h as [|a h IH]; simpl.
  - intros _. by rewrite Ascii.eqb_refl.
  - intros [Ha Hh]%andb_true_iff. apply negb_true_iff in Ha.
    by rewrite Ha, (IH Hh).
Qed.

Lemma prefix_lower_inv a p x :
  String.prefix (String a p) (lower x) = true ->
  exists c x', x = String c x' /\ lower_ascii c = a /\ String.prefix p (lower x') = true.
Proof.
  destruct x as [|c x']; unfold lower; cbn [string_map String.prefix]; [discriminate|].
  destruct (ascii_dec a (lower_ascii c)) as [->|]; [|discriminate]. eauto.
Qed.

Lemma lower_ascii_not_space c a :
  lower_ascii c = a -> a <> " "%char -> Ascii.eqb c " " = false.
Proof.
  intros <- Hne. destruct (Ascii.eqb_spec c " ") as [->|]; [|done].
  by destruct Hne.
Qed.

(** A header that passes the scheme test is six characters that are no
    space, a space, and the rest. *)
Lemma startswith_bearer_split a :
  startswith (lower a) "bearer " = true ->
  exists h t,
    a = (h ++ String " " t)%string
    /\ String.length h = 6%nat
    /\ string_forallb (fun c => negb (Ascii.eqb c " ")) h = true.
Proof.
  unfold startswith. intros H.
  apply prefix_lower_inv in H as (c0 & x0 & -> & H0 & H).
  apply prefix_lower_inv in H as (c1 & x1 & -> & H1 & H).
  apply prefix_lower_inv in H as (c2 & x2 & -> & H2 & H).
  apply prefix_lower_inv in H as (c3 & x3 & -> & H3 & H).
  apply prefix_lower_inv in H as (c4 & x4 & -> & H4 & H).
  apply prefix_lower_inv in H as (c5 & x5 & -> & H5 & H).
  apply prefix_lower_inv in H as (c6 & t & -> & H6 & _).
  apply lower_ascii_space in H6 as ->.
  exists (String c0 (String c1 (String c2 (String c3 (String c4 (String c5 ""))))))%string, t.
  split; [done|]. split; [done|]. cbn [string_forallb].
  rewrite (lower_ascii_not_space _ _ H0), (lower_ascii_not_space _ _ H1),
    (lower_ascii_not_space _ _ H2), (lower_ascii_not_space _ _ H3),
    (lower_ascii_not_space _ _ H4), (lower_ascii_not_space _ _ H5); done.
Qed.

(** X1.  [get_bearer_token] answers the header without its first seven
    characters when the header starts with "bearer " in any letter case,
    and [401] "Not authenticated" in every other case, the absent and the
    empty header included: the subscript of the split never fails, and the
    token may be empty or hold spaces. *)
Theorem get_bearer_token_spec (authorization : option string) :
  get_bearer_token authorization
  = match authorization with
    | Some a =>
        if startswith (lower a) "bearer "
        then Return (Item (substring 7 (String.length a - 7) a))
        else Raise (HTTPException 401 "Not authenticated")
    | None => Raise (HTTPException 401 "Not authenticated")
    end.
Proof.
  destruct authorization as [a|]; [|done]. unfold get_bearer_token.
  destruct (startswith (lower a) "bearer ") eqn:Hs; simpl.
  - destruct (startswith_bearer_split a Hs) as (h & t & -> & Hlen & Hh).
    assert (String.eqb (h ++ String " " t) "" = false) as ->.
    { apply String.eqb_neq. by destruct h. }
    simpl. rewrite (split_once_no_sep_then_sep _ _ _ Hh).
    unfold subscript. simpl. do 3 f_equal.
    destruct h as [|c0 [|c1 [|c2 [|c3 [|c4 [|c5 [|]]]]]]]; try discriminate.
    simpl. by rewrite Nat.sub_0_r, substring_all.
  - by rewrite orb_true_r.
Qed.

(** ** What a token is accepted for *)

(** [ObjectId] raises nothing but [InvalidId]. *)
Lemma ObjectId_Raise s e : ObjectId s = Raise e -> e = InvalidId.
Proof.
  unfold ObjectId. destruct (Nat.eqb _ _); [destruct (fromhex s)|]; congruence.
Qed.

Section Authentication.

Variable JWT_SECRET : string.
Variable hs256_sign : string -> string -> gmap string value -> string.
Variable int_str : string -> option Z.

Lemma validate_exp_Return claims now :
  validate_exp int_str claims now = Return () ->
  match claims !! "exp" with
  | Some v => exists exp, int_ int_str v = Return exp /\ now < exp * 1000
  | None => True
  end.
Proof.
  unfold validate_exp. destruct (claims !! "exp") as [v|]; [|done].
  unfold int_claim, try_except.
  destruct (int_ int_str v) as [exp|e]; simpl; [|done].
  unfold seconds_leb. destruct (exp * 1000 <=? now) eqn:Hle; [done|].
  intros _. exists exp. split; [done|]. by apply Z.leb_gt.
Qed.

Lemma jwt_decode_Return tok now claims :
  jwt_decode hs256_sign int_str tok JWT_SECRET [JWT_ALG] now = Return claims ->
  tok = JWS JWT_ALG claims (hs256_sign JWT_SECRET JWT_ALG claims)
  /\ match claims !! "exp" with
     | Some v => exists exp, int_ int_str v = Return exp /\ now < exp * 1000
     | None => True
     end.
Proof.
  unfold jwt_decode. destruct tok as [raw|alg payload sig]; [done|].
  destruct (bool_decide (alg ∈ [JWT_ALG])) eqn:Halg; simpl; [|done].
  apply bool_decide_eq_true_1, list_elem_of_singleton in Halg as ->.
  destruct (String.eqb sig _) eqn:Hsig; simpl; [|done].
  apply String.eqb_eq in Hsig as ->.
  unfold validate_claims.
  destruct (validate_iat _ _ _) as [[]|]; simpl; [|done].
  destruct (validate_nbf _ _ _) as [[]|]; simpl; [|done].
  destruct (validate_exp _ _ _) as [[]|] eqn:Hexp; simpl; [|done].
  destruct (validate_aud _) as [[]|]; simpl; [|done].
  intros [= <-]. split; [done|]. by apply validate_exp_Return.
Qed.

(** X2.  A token [get_current_user] accepts is signed with HS256 under the
    secret, is not expired (its ["exp"], read as [int] reads it, lies after
    the current instant; a token without ["exp"] never expires), and
    carries in ["sub"] a well-formed id; the user returned is a stored
    document with that id. *)
Theorem get_current_user_sound (db : Db) (now : datetime) (tok : token)
    (u : document) :
  get_current_user JWT_SECRET hs256_sign int_str db now tok = Return u ->
  exists claims sub,
    tok = JWS JWT_ALG claims (hs256_sign JWT_SECRET JWT_ALG claims)
    /\ match claims !! "exp" with
       | Some v => exists exp, int_ int_str v = Return exp /\ now < exp * 1000
       | None => True
       end
    /\ claims !! "sub" = Some (VStr sub)
    /\ ObjectId sub = Return (_id u)
    /\ u ∈ user db.
Proof.
  unfold get_current_user, try_except.
  destruct (jwt_decode _ _ _ _ _ _) as [claims|] eqn:Hdec; simpl; [|done].
  apply jwt_decode_Return in Hdec as [-> Hexp].
  unfold get_none, get.
  destruct (claims !! "sub") as [[| |sub| | |]|] eqn:Hsub; simpl; try done.
  destruct (ObjectId sub) as [oid|] eqn:Hoid; simpl; [|done].
  destruct (find_one (user db) _) as [u'|] eqn:Hfind; [|done].
  intros [= ->]. apply find_one_Some in Hfind as (c1 & c2 & Hsplit & Hm & _).
  apply Matches_id in Hm as <-.
  exists claims, sub. repeat split; try done.
  rewrite Hsplit. apply elem_of_app. right. left.
Qed.

(** X3.  A correctly signed, unexpired token is refused with
    [TokenInvalid] when no stored user has the id its subject names,
    whatever the subject is: absent, no string, no well-formed id (the
    [InvalidId] of [ObjectId] is caught here), or the id of no user. *)
Theorem get_current_user_unknown_subject (db : Db) (now : datetime) (tok : token)
    (claims : gmap string value) :
  jwt_decode hs256_sign int_str tok JWT_SECRET [JWT_ALG] now = Return claims ->
  (forall sub oid,
     claims !! "sub" = Some (VStr sub) -> ObjectId sub = Return oid ->
     Forall (fun u => _id u <> oid) (user db)) ->
  get_current_user JWT_SECRET hs256_sign int_str db now tok = Raise TokenInvalid.
Proof.
  intros Hdec Hno. unfold get_current_user, try_except. rewrite Hdec. simpl.
  unfold get_none, get.
  destruct (claims !! "sub") as [[| |sub| | |]|] eqn:Hsub; simpl; try done.
  destruct (ObjectId sub) as [oid|e] eqn:Hoid; simpl.
  - by rewrite (find_one_id_absent _ _ (Hno _ _ eq_refl Hoid)).
  - by rewrite (ObjectId_Raise _ _ Hoid).
Qed.

End Authentication.

(** ** Signing up, logging in, and the token that comes back *)

Section Accounts.

Variable JWT_SECRET : string.
Variable hs256_sign : string -> string -> gmap string value -> string.
Variable int_str : string -> option Z.
Variable bcrypt_hash : string -> string -> string.
Variable bcrypt_verify : string -> string -> result bool.

Lemma signup_Return db db' r now salt new_user_id payload :
  signup JWT_SECRET hs256_sign bcrypt_hash now salt new_user_id payload db
  = (db', Return r) ->
  find_one (user db) (Query None {["email" := SignupModel.email payload]}) = None
  /\ Forall (fun u => _id u <> new_user_id) (user db)
  /\ db' = MkDb (user db ++ [new_user bcrypt_hash salt new_user_id payload])
                (project db) (message db)
  /\ signup_token r
     = create_access_token JWT_SECRET hs256_sign now
         {["sub" := VStr (str new_user_id)]} None.
Proof.
  unfold signup. run.
  destruct (find_one (user db) _) as [u|] eqn:Hfind; [done|].
  destruct (insert_one (user db) _ _) as [[users i]|] eqn:Hins; [|done].
  apply insert_one_Return in Hins as (-> & -> & Hfresh).
  by intros [= <- <-].
Qed.

Lemma token_accepted db now now' user_id oid u :
  ObjectId user_id = Return oid ->
  find_one (user db) (Query (Some oid) ∅) = Some u ->
  now' < timegm (now + minutes ACCESS_TOKEN_EXPIRE_MINUTES) * 1000 ->
  get_current_user JWT_SECRET hs256_sign int_str db now'
    (create_access_token JWT_SECRET hs256_sign now {["sub" := VStr user_id]} None)
  = Return u.
Proof.
  intros Hoid Hfind Hnow.
  unfold get_current_user. rewrite jwt_decode_issued. unfold seconds_leb.
  assert ((timegm (now + minutes ACCESS_TOKEN_EXPIRE_MINUTES) * 1000 <=? now') = false)
    as -> by (apply Z.leb_gt; lia).
  simpl. unfold get_none, get. rewrite lookup_insert_ne by done.
  rewrite lookup_singleton_eq. simpl. rewrite Hoid. simpl. by rewrite Hfind.
Qed.

(** X4.  After a successful [signup], every later [signup] with the same
    email, whatever its other fields, is refused with [400] "Email already
    registered" and leaves the store as it is. *)
Theorem signup_exactly_once (db db' : Db) (r : SignupResponse) (now : datetime)
    (salt : string) (new_user_id : ObjectId_t) (payload : SignupModel.t)
    (now2 : datetime) (salt2 : string) (new_user_id2 : ObjectId_t)
    (payload2 : SignupModel.t) :
  signup JWT_SECRET hs256_sign bcrypt_hash now salt new_user_id payload db
  = (db', Return r) ->
  SignupModel.email payload2 = SignupModel.email payload ->
  signup JWT_SECRET hs256_sign bcrypt_hash now2 salt2 new_user_id2 payload2 db'
  = (db', Raise (HTTPException 400 "Email already registered")).
Proof.
  intros Hs Hemail. apply signup_Return in Hs as (Hnone & _ & -> & _).
  unfold signup. run. rewrite Hemail.
  apply find_one_None in Hnone.
  rewrite (find_one_app_hit _ [] _ (new_user bcrypt_hash salt new_user_id payload) Hnone); [done|].
  split; [by intros ? [=]|]. simpl. rewrite map_Forall_singleton.
  unfold User_model_dump. by simplify_map_eq.
Qed.

(** X5.  The token a successful [signup] returns is accepted by
    [get_current_user] until its expiry, the whole second at or before the
    instant of the signup plus seven days, and resolves to the stored new
    user, who is no admin: both admin handlers answer that user
    [Forbidden]. *)
Theorem signup_then_authenticate (db db' : Db) (r : SignupResponse)
    (now now' : datetime) (salt : string) (new_user_id : ObjectId_t)
    (payload : SignupModel.t) :
  signup JWT_SECRET hs256_sign bcrypt_hash now salt new_user_id payload db
  = (db', Return r) ->
  ObjectId (str new_user_id) = Return new_user_id ->
  now' < timegm (now + minutes ACCESS_TOKEN_EXPIRE_MINUTES) * 1000 ->
  exists u,
    get_current_user JWT_SECRET hs256_sign int_str db' now' (signup_token r) = Return u
    /\ _id u = new_user_id
    /\ body u !! "email" = Some (VStr (SignupModel.email payload))
    /\ (forall service status,
          admin_list_projects db' service status u = Raise Forbidden)
    /\ (forall project_id p,
          admin_update_status project_id p u db' = (db', Raise Forbidden)).
Proof.
  intros Hs Hoid Hnow. apply signup_Return in Hs as (_ & Hfresh & -> & ->).
  exists (new_user bcrypt_hash salt new_user_id payload).
  assert (Hadm : is_admin (new_user bcrypt_hash salt new_user_id payload) = false).
  { unfold is_admin, get, new_user, User_model_dump. simpl. by simplify_map_eq. }
  split; [|split; [done|split; [|split]]].
  - apply (token_accepted _ _ _ _ new_user_id); [done| |done]. simpl.
    apply find_one_app_hit; [|by apply Matches_id].
    eapply Forall_impl; [exact Hfresh|]. intros x Hx Hm. by apply Matches_id in Hm.
  - unfold new_user, User_model_dump. simpl. by simplify_map_eq.
  - intros. by apply admin_list_projects_forbidden.
  - intros. by apply admin_update_status_forbidden.
Qed.

(** X6.  After a successful [signup], [login] with the same email and
    password succeeds, provided bcrypt identifies and verifies the hash it
    made, and its token names the new user. *)
Theorem signup_then_login (db db' : Db) (r : SignupResponse)
    (now now' : datetime) (salt : string) (new_user_id : ObjectId_t)
    (payload : SignupModel.t) :
  signup JWT_SECRET hs256_sign bcrypt_hash now salt new_user_id payload db
  = (db', Return r) ->
  bcrypt_identify (bcrypt_hash salt (SignupModel.password payload)) = true ->
  bcrypt_verify (SignupModel.password payload)
    (bcrypt_hash salt (SignupModel.password payload)) = Return true ->
  exists r',
    login JWT_SECRET hs256_sign bcrypt_verify db' now'
      (LoginModel.mk (SignupModel.email payload) (SignupModel.password payload))
    = Return r'
    /\ access_token r'
       = create_access_token JWT_SECRET hs256_sign now'
           {["sub" := VStr (str new_user_id)]} None
    /\ login_user r' !! "is_admin" = Some (VBool false).
Proof.
  intros Hs Hid Hver. apply signup_Return in Hs as (Hnone & _ & -> & _).
  rewrite login_cases. simpl.
  apply find_one_None in Hnone.
  rewrite (find_one_app_hit _ [] _ (new_user bcrypt_hash salt new_user_id payload) Hnone).
  2:{ split; [by intros ? [=]|]. simpl. rewrite map_Forall_singleton.
      unfold User_model_dump. by simplify_map_eq. }
  assert (get (body (new_user bcrypt_hash salt new_user_id payload)) "password_hash" (VStr "")
          = VStr (bcrypt_hash salt (SignupModel.password payload))) as ->.
  { unfold get, new_user, User_model_dump, hash_password. simpl. by simplify_map_eq. }
  unfold verify_password, pwd_context_verify. rewrite Hid, Hver.
  eexists. split; [reflexivity|]. split; [done|]. simpl.
  unfold get, User_model_dump. by simplify_map_eq.
Qed.

(** X7.  The token a successful [login] returns is accepted by
    [get_current_user] until its expiry, the whole second at or before the
    instant of the login plus seven days, and resolves to the user with
    the email, on a store whose user ids are unique and canonical. *)
Theorem login_then_authenticate (db : Db) (now now' : datetime)
    (payload : LoginModel.t) (r : LoginResponse) :
  login JWT_SECRET hs256_sign bcrypt_verify db now payload = Return r ->
  NoDup (_id <$> user db) ->
  Forall (fun u => ObjectId (str (_id u)) = Return (_id u)) (user db) ->
  now' < timegm (now + minutes ACCESS_TOKEN_EXPIRE_MINUTES) * 1000 ->
  exists u,
    get_current_user JWT_SECRET hs256_sign int_str db now' (access_token r) = Return u
    /\ u ∈ user db
    /\ body u !! "email" = Some (VStr (LoginModel.email payload)).
Proof.
  intros Hlogin Hnd Hcanon Hnow. rewrite login_cases in Hlogin.
  destruct (find_one (user db) _) as [u|] eqn:Hfind; [|done].
  destruct (verify_password _ _ _) as [[]|]; try done.
  injection Hlogin as <-. simpl.
  apply find_one_Some in Hfind as (c1 & c2 & Hsplit & [_ Hm] & _).
  simpl in Hm. rewrite map_Forall_singleton in Hm.
  assert (Hin : u ∈ user db) by (rewrite Hsplit, elem_of_app; right; left).
  exists u. split; [|done].
  apply (token_accepted _ _ _ _ (_id u)); [|by apply find_one_id_elem|done].
  rewrite Forall_forall in Hcanon. by apply Hcanon.
Qed.

End Accounts.

(** ** What one request can do to the store *)

Lemma update_one_Forall2 (R : document -> document -> Prop) c q op c' :
  (forall d, R d d) ->
  (forall d d', op d = Return d' -> R d d') ->
  update_one c q op = Return c' ->
  Forall2 R c c'.
Proof.
  intros Hrefl Hop. revert c'.
  induction c as [|x c IH]; simpl; intros c'.
  - intros [= <-]. constructor.
  - destruct (decide (Matches q x)).
    + destruct (op x) as [x'|] eqn:Hx; simpl; [|done].
      intros [= <-]. constructor; [by apply Hop|]. by apply Forall_Forall2_diag, Forall_true.
    + destruct (update_one c q op) as [c''|]; simpl; [|done].
      intros [= <-]. constructor; [done|]. by apply IH.
Qed.

Lemma user_step_refl u : user_step u u.
Proof. by split. Qed.

Lemma project_step_refl p : project_step p p.
Proof. split; [done|]. split; [done|]. intros fs Hfs. by exists fs. Qed.

Lemma project_kept_refl p : project_kept p p.
Proof. split; [apply project_step_refl | done]. Qed.

Lemma user_step_trans u1 u2 u3 : user_step u1 u2 -> user_step u2 u3 -> user_step u1 u3.
Proof.
  intros [Hi1 H1] [Hi2 H2]. split; [congruence|].
  intros k Hn Hp. by rewrite H2, H1.
Qed.

Lemma project_step_trans p1 p2 p3 :
  project_step p1 p2 -> project_step p2 p3 -> project_step p1 p3.
Proof.
  intros (Hi1 & H1 & Hf1) (Hi2 & H2 & Hf2). split; [congruence|]. split.
  - intros k ? ? ?. by rewrite H2, H1.
  - intros fs Hfs. destruct (Hf1 _ Hfs) as (fs' & Hfs' & Hpre).
    destruct (Hf2 _ Hfs') as (fs'' & Hfs'' & Hpre').
    exists fs''. split; [done|]. by etrans.
Qed.

Lemma set_op_profile_user_step payload d d' :
  set_op (profile_update payload) d = Return d' -> user_step d d'.
Proof.
  intros [= <-]. split; [done|]. intros k Hn Hp. simpl.
  rewrite lookup_union_r; [done|].
  rewrite profile_update_lookup. by rewrite !decide_False.
Qed.

Lemma push_files_project_kept m d d' :
  push_files m d = Return d' -> project_kept d d'.
Proof.
  unfold push_files, project_kept, project_step, files_of.
  destruct (body d !! "files") as [[| | | | |l]|] eqn:Hf; intros [= <-]; simpl;
    rewrite ?lookup_insert_eq.
  - repeat split; try (intros; by rewrite lookup_insert_ne).
    intros fs [= <-]. exists (l ++ [m]). split; [done|]. by apply prefix_app_r.
  - repeat split; try (intros; by rewrite lookup_insert_ne).
    intros fs [= <-]. exists [m]. split; [done|]. apply prefix_nil.
Qed.

Lemma set_op_status_project_step upd d d' :
  (forall k, k <> "status" -> k <> "notes" -> upd !! k = None) ->
  set_op upd d = Return d' -> project_step d d'.
Proof.
  intros Hupd [= <-]. split; [done|]. split.
  - intros k ? ? ?. simpl. rewrite lookup_union_r; [done|]. by apply Hupd.
  - intros fs Hfs. exists fs. split; [|done].
    unfold files_of in *. simpl. rewrite lookup_union_r; [done|]. by apply Hupd.
Qed.

Lemma update_me_effect payload u db db' r :
  update_me payload u db = (db', r) ->
  exists us, db' = MkDb us (project db) (message db) /\ Forall2 user_step (user db) us.
Proof.
  unfold update_me. destruct (bool_decide (profile_update payload ≠ ∅)); run.
  - destruct (update_one (user db) _ _) as [us|] eqn:Hupd; simpl.
    + intros H. exists us. split.
      * destruct (find_one us _); by injection H as <- _.
      * eapply update_one_Forall2; [apply user_step_refl| |exact Hupd].
        apply set_op_profile_user_step.
    + intros [= <- _]. exists (user db). split; [by destruct db|].
      apply Forall_Forall2_diag, Forall_true, user_step_refl.
  - intros H. exists (user db). split.
    + destruct (find_one (user db) _); injection H as <- _; by destruct db.
    + apply Forall_Forall2_diag, Forall_true, user_step_refl.
Qed.

Lemma upload_file_effect now project_id file u db db' r :
  upload_file now project_id file u db = (db', r) ->
  exists ps, db' = MkDb (user db) ps (message db) /\ Forall2 project_kept (project db) ps.
Proof.
  assert (Hsame : exists ps, db = MkDb (user db) ps (message db)
                             /\ Forall2 project_kept (project db) ps).
  { exists (project db). split; [by destruct db|].
    apply Forall_Forall2_diag, Forall_true, project_kept_refl. }
  unfold upload_file. run.
  destruct (ObjectId project_id) as [oid|]; simpl; [|by intros [= <- _]].
  destruct (_ && _); [by intros [= <- _]|].
  destruct (update_one (project db) _ _) as [ps|] eqn:Hupd;
    intros [= <- _]; [|done].
  exists ps. split; [done|].
  eapply update_one_Forall2; [apply project_kept_refl| |exact Hupd].
  intros d d'. apply push_files_project_kept.
Qed.

Lemma admin_update_status_effect project_id payload u db db' r :
  admin_update_status project_id payload u db = (db', r) ->
  exists ps,
    db' = MkDb (user db) ps (message db)
    /\ Forall2 project_step (project db) ps
    /\ (is_admin u = false -> ps = project db).
Proof.
  assert (Hsame : exists ps, db = MkDb (user db) ps (message db)
                             /\ Forall2 project_step (project db) ps
                             /\ (is_admin u = false -> ps = project db)).
  { exists (project db). split; [by destruct db|]. split; [|done].
    apply Forall_Forall2_diag, Forall_true, project_step_refl. }
  unfold admin_update_status.
  destruct (is_admin u); simpl; [|by intros [= <- _]]. run.
  destruct (ObjectId project_id) as [oid|]; simpl; [|by intros [= <- _]].
  destruct (update_one (project db) _ _) as [ps|] eqn:Hupd;
    intros [= <- _]; [|done].
  exists ps. split; [done|]. split; [|done].
  eapply update_one_Forall2; [apply project_step_refl| |exact Hupd].
  intros d d'. apply set_op_status_project_step.
  intros k Hs Hn. destruct (StatusUpdateModel.notes payload); by simplify_map_eq.
Qed.

Lemma create_project_effect now pid mid payload u db db' r :
  create_project now pid mid payload u db = (db', r) ->
  exists nps nms,
    db' = MkDb (user db) (project db ++ nps) (message db ++ nms)
    /\ (nps = []
        \/ exists p, nps = [p] /\ _id p = pid /\ files_of p = Some []
                     /\ body p !! "status" = Some (VStr "Pending")
                     /\ Forall (fun q => _id q <> pid) (project db)).
Proof.
  unfold create_project. run.
  destruct (insert_one (project db) _ _) as [[ps i]|] eqn:Hi1.
  - apply insert_one_Return in Hi1 as (-> & -> & Hfresh). simpl.
    destruct (insert_one (message db) _ _) as [[ms j]|] eqn:Hi2.
    + apply insert_one_Return in Hi2 as (-> & -> & _). intros [= <- _].
      eexists _, _. split; [reflexivity|]. right. eexists. split; [reflexivity|].
      repeat split; try done; unfold files_of, Project_model_dump; simpl;
        by simplify_map_eq.
    + intros [= <- _]. exists [Doc pid (Project_model_dump
          (Some (str (_id u))) (ProjectCreateModel.name payload)
          (ProjectCreateModel.email payload) (ProjectCreateModel.phone payload)
          (ProjectCreateModel.selected_service payload)
          (ProjectCreateModel.description payload)
          (ProjectCreateModel.budget payload) "Pending" None [])], [].
      split; [by rewrite app_nil_r|]. right. eexists. split; [reflexivity|].
      repeat split; try done; unfold files_of, Project_model_dump; simpl;
        by simplify_map_eq.
  - intros [= <- _]. exists [], []. split; [|by left].
    rewrite !app_nil_r. by destruct db.
Qed.

Lemma send_message_effect now mid project_id payload u db db' r :
  send_message now mid project_id payload u db = (db', r) ->
  exists nms, db' = MkDb (user db) (project db) (message db ++ nms).
Proof.
  assert (Hsame : exists nms, db = MkDb (user db) (project db) (message db ++ nms)).
  { exists []. rewrite app_nil_r. by destruct db. }
  unfold send_message. run.
  destruct (ObjectId project_id) as [oid|]; simpl; [|by intros [= <- _]].
  destruct (find_one (project db) _); [|by intros [= <- _]].
  destruct (insert_one (message db) _ _) as [[ms i]|] eqn:Hi;
    intros [= <- _]; [|done].
  apply insert_one_Return in Hi as (-> & _). by eexists.
Qed.

Section Serving.

Variable JWT_SECRET : string.
Variable hs256_sign : string -> string -> gmap string value -> string.
Variable int_str : string -> option Z.
Variable bcrypt_hash : string -> string -> string.

Lemma get_current_user_stored db now tok u :
  get_current_user JWT_SECRET hs256_sign int_str db now tok = Return u -> u ∈ user db.
Proof.
  unfold get_current_user, try_except.
  destruct (jwt_decode _ _ _ _ _ _) as [claims|]; simpl; [|done].
  destruct (get_none claims "sub") as [| |sub| | |]; simpl; try done.
  destruct (ObjectId sub) as [oid|]; simpl; [|done].
  destruct (find_one (user db) _) as [u'|] eqn:Hfind; [|done].
  intros [= ->]. apply find_one_Some in Hfind as (c1 & c2 & -> & _).
  apply elem_of_app. right. left.
Qed.

Lemma with_current_user_cases {A} now tok (handler : document -> M A) db db' r :
  with_current_user JWT_SECRET hs256_sign int_str now tok handler db = (db', r) ->
  db' = db \/ exists u, u ∈ user db /\ handler u db = (db', r).
Proof.
  unfold with_current_user.
  destruct (get_current_user _ _ _ _ _ _) as [u|] eqn:Hu.
  - right. exists u. split; [by apply get_current_user_stored in Hu | done].
  - intros [= <- _]. by left.
Qed.

Lemma signup_effect db db' r now salt new_user_id payload :
  signup JWT_SECRET hs256_sign bcrypt_hash now salt new_user_id payload db = (db', r) ->
  db' = db
  \/ (db' = MkDb (user db ++ [new_user bcrypt_hash salt new_user_id payload])
                 (project db) (message db)
      /\ find_one (user db) (Query None {["email" := SignupModel.email payload]}) = None
      /\ Forall (fun u => _id u <> new_user_id) (user db)).
Proof.
  unfold signup. run.
  destruct (find_one (user db) _) as [u|] eqn:Hfind; [intros [= <- _]; by left|].
  destruct (insert_one (user db) _ _) as [[users i]|] eqn:Hins;
    [|intros [= <- _]; by left].
  apply insert_one_Return in Hins as (-> & -> & Hfresh).
  intros [= <- _]. by right.
Qed.

(** The shape of the store one request leaves: stored users and projects
    stepped in place, at most one user and one project appended, messages
    appended. *)
Lemma serve_step now r db :
  exists us nus ps nps nms,
    serve JWT_SECRET hs256_sign int_str bcrypt_hash now r db
    = MkDb (us ++ nus) (ps ++ nps) (message db ++ nms)
    /\ Forall2 user_step (user db) us
    /\ (nus = []
        \/ exists salt new_user_id payload,
             nus = [new_user bcrypt_hash salt new_user_id payload]
             /\ find_one (user db)
                  (Query None {["email" := SignupModel.email payload]}) = None
             /\ Forall (fun u => _id u <> new_user_id) (user db))
    /\ Forall2 project_step (project db) ps
    /\ (Forall (fun u => is_admin u = false) (user db) ->
        Forall2 project_kept (project db) ps)
    /\ (nps = []
        \/ exists p, nps = [p] /\ files_of p = Some []
                     /\ body p !! "status" = Some (VStr "Pending")
                     /\ Forall (fun q => _id q <> _id p) (project db)).
Proof.
  assert (Hu : Forall2 user_step (user db) (user db))
    by apply Forall_Forall2_diag, Forall_true, user_step_refl.
  assert (Hp : Forall2 project_step (project db) (project db))
    by apply Forall_Forall2_diag, Forall_true, project_step_refl.
  assert (Hk : Forall2 project_kept (project db) (project db))
    by apply Forall_Forall2_diag, Forall_true, project_kept_refl.
  assert (Hsame : forall db', db' = db ->
            exists us nus ps nps nms,
              db' = MkDb (us ++ nus) (ps ++ nps) (message db ++ nms)
              /\ Forall2 user_step (user db) us
              /\ (nus = []
                  \/ exists salt new_user_id payload,
                       nus = [new_user bcrypt_hash salt new_user_id payload]
                       /\ find_one (user db)
                            (Query None {["email" := SignupModel.email payload]}) = None
                       /\ Forall (fun u => _id u <> new_user_id) (user db))
              /\ Forall2 project_step (project db) ps
              /\ (Forall (fun u => is_admin u = false) (user db) ->
                  Forall2 project_kept (project db) ps)
              /\ (nps = []
                  \/ exists p, nps = [p] /\ files_of p = Some []
                               /\ body p !! "status" = Some (VStr "Pending")
                               /\ Forall (fun q => _id q <> _id p) (project db))).
  { intros db' ->. exists (user db), [], (project db), [], [].
    rewrite !app_nil_r. destruct db; simpl in *. repeat split; auto. }
  destruct r as [salt uid payload|tok payload|tok pid mid payload
                |tok project_id file|tok mid project_id payload
                |tok project_id payload]; simpl.
  - destruct (signup _ _ _ _ _ _ _ _) as [db' r] eqn:Hs. simpl.
    apply signup_effect in Hs as [->|(-> & Hnone & Hfresh)]; [by apply Hsame|].
    exists (user db), [new_user bcrypt_hash salt uid payload], (project db), [], [].
    rewrite !app_nil_r. repeat split; eauto 10.
  - destruct (with_current_user _ _ _ _ _ _ _) as [db' r] eqn:Hs. simpl.
    apply with_current_user_cases in Hs as [->|(u & _ & Hs)]; [by apply Hsame|].
    apply update_me_effect in Hs as (us & -> & Hus).
    exists us, [], (project db), [], []. rewrite !app_nil_r. repeat split; auto.
  - destruct (with_current_user _ _ _ _ _ _ _) as [db' r] eqn:Hs. simpl.
    apply with_current_user_cases in Hs as [->|(u & _ & Hs)]; [by apply Hsame|].
    apply create_project_effect in Hs as (nps & nms & -> & Hnps).
    exists (user db), [], (project db), nps, nms. rewrite !app_nil_r.
    repeat split; auto.
    destruct Hnps as [->|(p & -> & <- & ? & ? & ?)]; [by left|right; eauto].
  - destruct (with_current_user _ _ _ _ _ _ _) as [db' r] eqn:Hs. simpl.
    apply with_current_user_cases in Hs as [->|(u & _ & Hs)]; [by apply Hsame|].
    apply upload_file_effect in Hs as (ps & -> & Hps).
    exists (user db), [], ps, [], []. rewrite !app_nil_r. repeat split; auto.
    eapply Forall2_impl; [exact Hps|]. by intros ? ? [? _].
  - destruct (with_current_user _ _ _ _ _ _ _) as [db' r] eqn:Hs. simpl.
    apply with_current_user_cases in Hs as [->|(u & _ & Hs)]; [by apply Hsame|].
    apply send_message_effect in Hs as (nms & ->).
    exists (user db), [], (project db), [], nms. rewrite !app_nil_r.
    repeat split; auto.
  - destruct (with_current_user _ _ _ _ _ _ _) as [db' r] eqn:Hs. simpl.
    apply with_current_user_cases in Hs as [->|(u & Hin & Hs)]; [by apply Hsame|].
    apply admin_update_status_effect in Hs as (ps & -> & Hps & Hna).
    exists (user db), [], ps, [], []. rewrite !app_nil_r. repeat split; auto.
    intros Hno. rewrite Forall_forall in Hno. by rewrite (Hna (Hno _ Hin)).
Qed.

End Serving.

(** ** What no sequence of requests can do *)

Lemma Forall2_fmap_eq {A B} (f : A -> B) (R : A -> A -> Prop) l l' :
  (forall x y, R x y -> f x = f y) -> Forall2 R l l' -> f <$> l = f <$> l'.
Proof.
  intros Hf. induction 1 as [|x y l l' Hxy _ IH]; [done|].
  by rewrite !fmap_cons, (Hf _ _ Hxy), IH.
Qed.

Lemma Forall2_fmap_prefix {A B} (f : A -> B) (R : A -> A -> Prop) l l1 l2 :
  (forall x y, R x y -> f x = f y) -> Forall2 R l l1 ->
  f <$> l `prefix_of` f <$> (l1 ++ l2).
Proof.
  intros Hf HR. rewrite fmap_app, (Forall2_fmap_eq f R l l1 Hf HR).
  by apply prefix_app_r.
Qed.

Lemma user_step_is_admin u u' : user_step u u' -> is_admin u' = is_admin u.
Proof. intros [_ H]. unfold is_admin, get. by rewrite H. Qed.

Lemma new_user_is_admin bcrypt_hash salt new_user_id payload :
  is_admin (new_user bcrypt_hash salt new_user_id payload) = false.
Proof. unfold is_admin, get, new_user, User_model_dump. simpl. by simplify_map_eq. Qed.

Section Invariants.

Variable JWT_SECRET : string.
Variable hs256_sign : string -> string -> gmap string value -> string.
Variable int_str : string -> option Z.
Variable bcrypt_hash : string -> string -> string.

Lemma serve_no_new_admin now r db :
  Forall (fun u => is_admin u = false) (user db) ->
  Forall (fun u => is_admin u = false)
         (user (serve JWT_SECRET hs256_sign int_str bcrypt_hash now r db)).
Proof.
  intros Hno.
  destruct (serve_step JWT_SECRET hs256_sign int_str bcrypt_hash now r db)
    as (us & nus & ps & nps & nms & -> & Hus & Hnus & _).
  simpl. apply Forall_app. split.
  - clear Hnus. induction Hus as [|u u' l l' Hstep _ IH]; [done|].
    inversion Hno; subst. constructor; [|by apply IH].
    by rewrite (user_step_is_admin _ _ Hstep).
  - destruct Hnus as [->|(salt & uid & payload & -> & _)]; [done|].
    constructor; [apply new_user_is_admin | done].
Qed.

(** X8.  From a store in which no user is an admin, no sequence of
    requests leads to a store in which one is: neither [signup] nor
    [update_me] sets the admin flag, and no other handler writes users. *)
Theorem serve_all_no_new_admin (rs : list (datetime * request)) (db : Db) :
  Forall (fun u => is_admin u = false) (user db) ->
  Forall (fun u => is_admin u = false)
         (user (serve_all JWT_SECRET hs256_sign int_str bcrypt_hash rs db)).
Proof.
  revert db. induction rs as [|[now r] rs IH]; intros db Hno; [done|].
  simpl. apply IH. by apply serve_no_new_admin.
Qed.

(** X9.  While no stored user is an admin, the status and the notes of
    the stored projects stay what they are under every sequence of
    requests: only an admin's [admin_update_status] writes them. *)
Theorem serve_all_status_needs_admin (rs : list (datetime * request)) (db : Db) :
  Forall (fun u => is_admin u = false) (user db) ->
  (fun p => (_id p, body p !! "status", body p !! "notes")) <$> project db
  `prefix_of`
  (fun p => (_id p, body p !! "status", body p !! "notes"))
    <$> project (serve_all JWT_SECRET hs256_sign int_str bcrypt_hash rs db).
Proof.
  revert db. induction rs as [|[now r] rs IH]; intros db Hno; [done|].
  simpl. etrans; [|apply IH; by apply serve_no_new_admin].
  destruct (serve_step JWT_SECRET hs256_sign int_str bcrypt_hash now r db)
    as (us & nus & ps & nps & nms & -> & _ & _ & _ & Hkept & _).
  simpl. eapply Forall2_fmap_prefix; [|by apply Hkept].
  intros p p' ((Hid & _) & Hs & Hn). by rewrite Hid, Hs, Hn.
Qed.

(** X10.  Under every sequence of requests the store only grows: no user,
    project or message is removed or reordered; a stored user keeps its
    id and every field but ["name"] and ["phone"] (its email, password hash
    and admin flag among them); a stored project keeps its id and every
    field but ["status"], ["notes"] and ["files"] (its owner among them);
    a stored message is never changed. *)
Theorem serve_all_append_only (rs : list (datetime * request)) (db : Db) :
  (forall k, k <> "name" -> k <> "phone" ->
     (fun u => (_id u, body u !! k)) <$> user db
     `prefix_of`
     (fun u => (_id u, body u !! k))
       <$> user (serve_all JWT_SECRET hs256_sign int_str bcrypt_hash rs db))
  /\ (forall k, k <> "status" -> k <> "notes" -> k <> "files" ->
        (fun p => (_id p, body p !! k)) <$> project db
        `prefix_of`
        (fun p => (_id p, body p !! k))
          <$> project (serve_all JWT_SECRET hs256_sign int_str bcrypt_hash rs db))
  /\ message db `prefix_of` message (serve_all JWT_SECRET hs256_sign int_str bcrypt_hash rs db).
Proof.
  revert db. induction rs as [|[now r] rs IH]; intros db; [done|].
  simpl.
  destruct (IH (serve JWT_SECRET hs256_sign int_str bcrypt_hash now r db)) as (IHu & IHp & IHm).
  destruct (serve_step JWT_SECRET hs256_sign int_str bcrypt_hash now r db)
    as (us & nus & ps & nps & nms & Hs & Hus & _ & Hps & _).
  rewrite Hs in IHu, IHp, IHm. rewrite Hs. simpl in *.
  split; [|split].
  - intros k Hn Hp. etrans; [|by apply IHu].
    eapply Forall2_fmap_prefix; [|exact Hus].
    intros u u' [Hid Hk]. by rewrite Hid, Hk.
  - intros k H1 H2 H3. etrans; [|by apply IHp].
    eapply Forall2_fmap_prefix; [|exact Hps].
    intros p p' (Hid & Hk & _). by rewrite Hid, Hk.
  - etrans; [|exact IHm]. by apply prefix_app_r.
Qed.

(** X11.  Under every sequence of requests the file list of a stored
    project only grows at its end: the project stays at its place with its
    id, and the files it had are a prefix of the files it has. *)
Theorem serve_all_files_append_only (rs : list (datetime * request)) (db : Db)
    (i : nat) (p : document) (fs : list FileMeta) :
  project db !! i = Some p ->
  files_of p = Some fs ->
  exists p' fs',
    project (serve_all JWT_SECRET hs256_sign int_str bcrypt_hash rs db) !! i = Some p'
    /\ _id p' = _id p
    /\ files_of p' = Some fs'
    /\ fs `prefix_of` fs'.
Proof.
  revert db p fs. induction rs as [|[now r] rs IH]; intros db p fs Hi Hfs.
  - exists p, fs. by simpl.
  - simpl.
    destruct (serve_step JWT_SECRET hs256_sign int_str bcrypt_hash now r db)
      as (us & nus & ps & nps & nms & Hs & _ & _ & Hps & _).
    destruct (Forall2_lookup_l _ _ _ _ _ Hps Hi) as (p1 & Hi1 & Hid1 & _ & Hf1).
    destruct (Hf1 _ Hfs) as (fs1 & Hfs1 & Hpre1).
    destruct (IH (serve JWT_SECRET hs256_sign int_str bcrypt_hash now r db) p1 fs1)
      as (p' & fs' & Hi' & Hid' & Hfs' & Hpre'); [|done|].
    { rewrite Hs. simpl. by apply lookup_app_l_Some. }
    exists p', fs'. split; [done|]. split; [congruence|]. split; [done|].
    by etrans.
Qed.

Lemma serve_projects_wf now r db :
  projects_wf db -> projects_wf (serve JWT_SECRET hs256_sign int_str bcrypt_hash now r db).
Proof.
  intros [Hnd Hf].
  destruct (serve_step JWT_SECRET hs256_sign int_str bcrypt_hash now r db)
    as (us & nus & ps & nps & nms & -> & _ & _ & Hps & _ & Hnps).
  assert (Hids : _id <$> project db = _id <$> ps).
  { eapply Forall2_fmap_eq; [|exact Hps]. by intros p p' (-> & _). }
  split; simpl.
  - rewrite fmap_app, <- Hids.
    destruct Hnps as [->|(p & -> & _ & _ & Hfresh)]; [by rewrite app_nil_r|].
    apply NoDup_app. split; [done|]. split; [|apply NoDup_singleton].
    intros o Ho Ho'. apply list_elem_of_singleton in Ho'. simpl in Ho'. subst o.
    apply list_elem_of_fmap in Ho as (q & Hq & Hin).
    rewrite Forall_forall in Hfresh. by apply (Hfresh q).
  - apply Forall_app. split.
    + clear Hids Hnd Hnps. induction Hps as [|p p' l l' Hstep _ IH]; [done|].
      inversion Hf as [|? ? [fs Hfs] Hl]; subst. constructor; [|by apply IH].
      destruct Hstep as (_ & _ & Hfiles).
      destruct (Hfiles _ Hfs) as (fs' & -> & _). eauto.
    + destruct Hnps as [->|(p & -> & Hfs & _)]; [done|].
      constructor; [by rewrite Hfs | done].
Qed.

(** X12.  Under every sequence of requests the project collection keeps
    unique ids and a file list that is an array in every project. *)
Theorem serve_all_projects_wf (rs : list (datetime * request)) (db : Db) :
  projects_wf db ->
  projects_wf (serve_all JWT_SECRET hs256_sign int_str bcrypt_hash rs db).
Proof.
  revert db. induction rs as [|[now r] rs IH]; intros db Hwf; [done|].
  simpl. apply IH. by apply serve_projects_wf.
Qed.

Lemma serve_emails_unique now r db :
  NoDup (omap (fun u => body u !! "email") (user db)) ->
  NoDup (omap (fun u => body u !! "email")
              (user (serve JWT_SECRET hs256_sign int_str bcrypt_hash now r db))).
Proof.
  intros Hnd.
  destruct (serve_step JWT_SECRET hs256_sign int_str bcrypt_hash now r db)
    as (us & nus & ps & nps & nms & -> & Hus & Hnus & _).
  simpl.
  assert (Hsame : omap (fun u => body u !! "email") (user db)
                  = omap (fun u => body u !! "email") us).
  { clear Hnd Hnus. induction Hus as [|u u' l l' [_ Hk] _ IH]; [done|].
    simpl. rewrite (Hk "email") by done.
    destruct (body u !! "email"); [f_equal|]; exact IH. }
  rewrite omap_app, <- Hsame.
  destruct Hnus as [->|(salt & uid & payload & -> & Hnone & _)];
    [by rewrite app_nil_r|].
  assert (body (new_user bcrypt_hash salt uid payload) !! "email"
          = Some (VStr (SignupModel.email payload))) as He.
  { unfold new_user, User_model_dump. simpl. by simplify_map_eq. }
  assert (Hone : forall (x : document) v,
            body x !! "email" = Some v ->
            omap (fun u => body u !! "email") [x] = [v])
    by (intros x v Hx; simpl; by rewrite Hx).
  rewrite (Hone _ _ He).
  apply NoDup_app. split; [done|]. split; [|apply NoDup_singleton].
  intros v Hv Hv'. apply list_elem_of_singleton in Hv' as ->.
  apply list_elem_of_omap in Hv as (u & Hin & Hu).
  apply find_one_None in Hnone. rewrite Forall_forall in Hnone.
  apply (Hnone u Hin). split; [by intros ? [=]|]. simpl.
  by rewrite map_Forall_singleton.
Qed.

(** X13.  Under every sequence of requests no two stored users share an
    email: [signup] refuses a stored email and nothing else writes one. *)
Theorem serve_all_emails_unique (rs : list (datetime * request)) (db : Db) :
  NoDup (omap (fun u => body u !! "email") (user db)) ->
  NoDup (omap (fun u => body u !! "email")
              (user (serve_all JWT_SECRET hs256_sign int_str bcrypt_hash rs db))).
Proof.
  revert db. induction rs as [|[now r] rs IH]; intros db Hnd; [done|].
  simpl. apply IH. by apply serve_emails_unique.
Qed.

End Invariants.

(** ** Updates applied twice *)

Lemma update_one_set_twice c o upd c' :
  update_one c (Query (Some o) ∅) (set_op upd) = Return c' ->
  update_one c' (Query (Some o) ∅) (set_op upd) = Return c'.
Proof.
  revert c'. induction c as [|d c IH]; simpl; intros c'.
  - by intros [= <-].
  - destruct (decide (Matches (Query (Some o) ∅) d)) as [Hm|Hm].
    + intros [= <-]. simpl. rewrite decide_True.
      * simpl. by rewrite (assoc_L (∪)), (idemp_L (∪)).
      * apply Matches_id. by apply Matches_id in Hm.
    + destruct (update_one c _ _) as [c''|]; simpl; [|done].
      intros [= <-]. simpl. rewrite decide_False by done.
      by rewrite (IH c'').
Qed.

Lemma update_one_set_Return c q upd : exists c', update_one c q (set_op upd) = Return c'.
Proof.
  induction c as [|d c [c' IH]]; simpl; [by eexists|].
  destruct (decide (Matches q d)); simpl; [by eexists|].
  rewrite IH. simpl. by eexists.
Qed.

Lemma update_me_unfold payload current_user db :
  exists us,
    (if bool_decide (profile_update payload ≠ ∅)
     then update_one (user db) (Query (Some (_id current_user)) ∅)
            (set_op (profile_update payload)) = Return us
     else us = user db)
    /\ update_me payload current_user db
       = (MkDb us (project db) (message db),
          match find_one us (Query (Some (_id current_user)) ∅) with
          | Some u => Return (profile u)
          | None => Raise TypeError
          end).
Proof.
  unfold update_me.
  destruct (bool_decide (profile_update payload ≠ ∅)); run.
  - destruct (update_one_set_Return (user db) (Query (Some (_id current_user)) ∅)
                (profile_update payload)) as [us Hus].
    exists us. split; [done|]. rewrite Hus. simpl. by destruct (find_one us _).
  - exists (user db). split; [done|].
    destruct (find_one (user db) _); by destruct db.
Qed.

(** X14.  [update_me] is idempotent: the same payload from the same user a
    second time leaves the store of the first call and gives its answer. *)
Theorem update_me_idempotent (payload : ProfileUpdateModel.t)
    (current_user : document) (db : Db) :
  update_me payload current_user (update_me payload current_user db).1
  = update_me payload current_user db.
Proof.
  destruct (update_me_unfold payload current_user db) as (us & Hus & ->). simpl.
  destruct (update_me_unfold payload current_user
              (MkDb us (project db) (message db))) as (us1 & Hus1 & ->). simpl in *.
  destruct (bool_decide (profile_update payload ≠ ∅)).
  - rewrite (update_one_set_twice _ _ _ _ Hus) in Hus1. by injection Hus1 as <-.
  - by subst.
Qed.

(** X15.  [admin_update_status] is idempotent: the same status update a
    second time leaves the store of the first call and gives its answer,
    for every caller and every id string. *)
Theorem admin_update_status_idempotent (project_id : string)
    (payload : StatusUpdateModel.t) (current_user : document) (db : Db) :
  admin_update_status project_id payload current_user
    (admin_update_status project_id payload current_user db).1
  = admin_update_status project_id payload current_user db.
Proof.
  unfold admin_update_status.
  destruct (is_admin current_user); simpl; [|done]. run.
  destruct (ObjectId project_id) as [oid|]; simpl; [|done].
  destruct (update_one (project db) _ _) as [ps|] eqn:Hupd; simpl.
  - by rewrite (update_one_set_twice _ _ _ _ Hupd).
  - by rewrite Hupd.
Qed.

(** ** Projects and their messages *)

Lemma sort_singleton d key direction : sort [d] key direction = [d].
Proof. done. Qed.

Lemma find_app c1 c2 q : find (c1 ++ c2) q = find c1 q ++ find c2 q.
Proof. unfold find. apply filter_app. Qed.

Lemma Matches_field k s d :
  Matches (Query None {[k := s]}) d <-> body d !! k = Some (VStr s).
Proof.
  unfold Matches; simpl. rewrite map_Forall_singleton. split.
  - by intros [_ ?].
  - intros ?. split; [by intros ? [=]|done].
Qed.

Lemma find_field_absent c k s :
  Forall (fun d => body d !! k <> Some (VStr s)) c -> find c (Query None {[k := s]}) = [].
Proof.
  intros H. apply find_no_match. eapply Forall_impl; [exact H|].
  intros d Hd Hm. by apply Matches_field in Hm.
Qed.

Lemma create_project_Return db db' r now pid mid payload u :
  create_project now pid mid payload u db = (db', Return r) ->
  db' = MkDb (user db)
          (project db ++ [Doc pid (Project_model_dump
             (Some (str (_id u))) (ProjectCreateModel.name payload)
             (ProjectCreateModel.email payload) (ProjectCreateModel.phone payload)
             (ProjectCreateModel.selected_service payload)
             (ProjectCreateModel.description payload)
             (ProjectCreateModel.budget payload) "Pending" None [])])
          (message db ++ [Doc mid
             (<["project_id" := VStr (str pid)]>
             (<["sender_id" := VStr (str (_id u))]>
             (<["sender_role" := VStr "customer"]>
             (<["content" := VStr "New project submitted"]>
             (<["created_at" := VDate now]> ∅)))))])
  /\ r = {["_id" := VStr (str pid)]}.
Proof.
  unfold create_project. run.
  destruct (insert_one (project db) _ _) as [[ps i]|] eqn:Hi1; [|done].
  apply insert_one_Return in Hi1 as (-> & -> & _). simpl.
  destruct (insert_one (message db) _ _) as [[ms j]|] eqn:Hi2; [|done].
  apply insert_one_Return in Hi2 as (-> & -> & _). by intros [= <- <-].
Qed.

(** X16.  After a successful [create_project], [get_messages] under the id
    the handler returned lists the initial message alone, for every caller,
    provided no stored message already carried that id: its text is "New
    project submitted", its sender the creator, its date the instant of
    creation. *)
Theorem create_project_then_get_messages (db db' : Db) (r : gmap string value)
    (now : datetime) (new_project_id new_message_id : ObjectId_t)
    (payload : ProjectCreateModel.t) (current_user reader : document) :
  create_project now new_project_id new_message_id payload current_user db
  = (db', Return r) ->
  Forall (fun m => body m !! "project_id" <> Some (VStr (str new_project_id)))
         (message db) ->
  exists msg,
    r !! "_id" = Some (VStr (str new_project_id))
    /\ get_messages db' (str new_project_id) reader = [msg]
    /\ msg !! "_id" = Some (VStr (str new_message_id))
    /\ msg !! "content" = Some (VStr "New project submitted")
    /\ msg !! "sender_id" = Some (VStr (str (_id current_user)))
    /\ msg !! "created_at" = Some (VDate now).
Proof.
  intros Hc Hold. apply create_project_Return in Hc as [-> ->].
  eexists. split; [by rewrite lookup_singleton_eq|]. split.
  - unfold get_messages. simpl. rewrite find_app, (find_field_absent _ _ _ Hold).
    simpl. unfold find. rewrite filter_cons_True, filter_nil.
    + rewrite sort_singleton. reflexivity.
    + apply Matches_field. simpl. by simplify_map_eq.
  - unfold stringify_id. simpl. repeat split; by simplify_map_eq.
Qed.

(** X17.  After a successful [create_project], [list_my_projects] of the
    creator is what it was with the new project appended, pending, without
    notes or files and under the id the handler returned; the list of a
    user with another id is what it was. *)
Theorem create_project_then_list_my_projects (db db' : Db) (r : gmap string value)
    (now : datetime) (new_project_id new_message_id : ObjectId_t)
    (payload : ProjectCreateModel.t) (current_user : document) :
  create_project now new_project_id new_message_id payload current_user db
  = (db', Return r) ->
  exists item,
    list_my_projects db' current_user = list_my_projects db current_user ++ [item]
    /\ item !! "_id" = r !! "_id"
    /\ item !! "status" = Some (VStr "Pending")
    /\ item !! "notes" = Some VNull
    /\ item !! "files" = Some (VArray [])
    /\ forall other,
         str (_id other) <> str (_id current_user) ->
         list_my_projects db' other = list_my_projects db other.
Proof.
  intros Hc. apply create_project_Return in Hc as [-> ->].
  eexists. split; [|split; [|split; [|split; [|split]]]].
  - unfold list_my_projects. simpl. rewrite find_app, fmap_app. f_equal.
    unfold find. rewrite filter_cons_True, filter_nil; [reflexivity|].
    apply Matches_field. unfold Project_model_dump. simpl. by simplify_map_eq.
  - unfold stringify_id. simpl. by simplify_map_eq.
  - unfold stringify_id, Project_model_dump. simpl. by simplify_map_eq.
  - unfold stringify_id, Project_model_dump. simpl. by simplify_map_eq.
  - unfold stringify_id, Project_model_dump. simpl. by simplify_map_eq.
  - intros other Hne. unfold list_my_projects. simpl.
    rewrite find_app. unfold find at 2. rewrite filter_cons_False, filter_nil.
    + by rewrite app_nil_r.
    + intros Hm. apply Matches_field in Hm. unfold Project_model_dump in Hm.
      simpl in Hm. simplify_map_eq; congruence.
Qed.

(** X18.  For an id string [ObjectId] refuses, the project handlers raise
    its [InvalidId] unhandled and write nothing; [admin_update_status]
    answers a caller who is no admin [Forbidden] first. *)
Theorem malformed_project_id (db : Db) (now : datetime) (project_id : string)
    (file : UploadFile.t) (new_message_id : ObjectId_t) (message : MessageModel.t)
    (status : StatusUpdateModel.t) (current_user : document) :
  ObjectId project_id = Raise InvalidId ->
  upload_file now project_id file current_user db = (db, Raise InvalidId)
  /\ send_message now new_message_id project_id message current_user db
     = (db, Raise InvalidId)
  /\ admin_update_status project_id status current_user db
     = (db, Raise (if is_admin current_user then InvalidId else Forbidden)).
Proof.
  intros Hid. unfold upload_file, send_message, admin_update_status. run.
  rewrite Hid. simpl. by destruct (is_admin current_user).
Qed.

(** X19.  A [send_message] that succeeds adds its message to what
    [get_messages] lists under the id string it was sent to, and leaves
    the listing under every other string as it was: also under another
    spelling of the same id, such as the canonical one when the message
    was sent to an upper-case spelling. *)
Theorem send_message_then_get_messages (db db' : Db) (r : gmap string value)
    (now : datetime) (new_message_id : ObjectId_t) (project_id : string)
    (payload : MessageModel.t) (current_user reader : document) :
  send_message now new_message_id project_id payload current_user db
  = (db', Return r) ->
  (exists msg,
     get_messages db' project_id reader ≡ₚ get_messages db project_id reader ++ [msg]
     /\ msg !! "content" = Some (VStr (MessageModel.content payload))
     /\ msg !! "sender_id" = Some (VStr (str (_id current_user))))
  /\ forall other,
       other <> project_id ->
       get_messages db' other reader = get_messages db other reader.
Proof.
  unfold send_message. run.
  destruct (ObjectId project_id) as [oid|]; simpl; [|done].
  destruct (find_one (project db) _); [|done].
  destruct (insert_one (message db) _ _) as [[ms i]|] eqn:Hi; [|done].
  apply insert_one_Return in Hi as (-> & -> & _). intros [= <- _].
  split.
  - eexists. split.
    + unfold get_messages. simpl. rewrite !sort_Permutation, find_app, fmap_app.
      unfold find at 2. rewrite filter_cons_True, filter_nil.
      * rewrite fmap_cons, fmap_nil. reflexivity.
      * apply Matches_field. unfold Message_model_dump. simpl. by simplify_map_eq.
    + unfold stringify_id, Message_model_dump. simpl. split; by simplify_map_eq.
  - intros other Hne. unfold get_messages. simpl.
    rewrite find_app. unfold find at 2. rewrite filter_cons_False, filter_nil.
    + by rewrite app_nil_r.
    + intros Hm. apply Matches_field in Hm. unfold Message_model_dump in Hm.
      simpl in Hm. simplify_map_eq; congruence.
Qed.

(** ** The order of a message listing *)

Lemma bson_leb_total a b : bson_leb a b = true \/ bson_leb b a = true.
Proof.
  destruct a as [[|x|x|x|x|x]|], b as [[|y|y|y|y|y]|]; simpl;
    try (by left); try (by right).
  - destruct x, y; auto.
  - apply String.leb_total.
  - destruct (Z.leb_spec x y); [by left|right; apply Z.leb_le; lia].
  - destruct (Z.leb_spec x y); [by left|right; apply Z.leb_le; lia].
Qed.

Lemma insert_sorted_Sorted (leb : document -> document -> bool) d l :
  (forall x y, leb x y = true \/ leb y x = true) ->
  Sorted (fun x y => leb x y = true) l ->
  Sorted (fun x y => leb x y = true) (insert_sorted leb d l).
Proof.
  intros Htotal. induction 1 as [|x l Hl IH Hhd]; simpl.
  - by repeat constructor.
  - destruct (leb d x) eqn:Hdx.
    + constructor; [by constructor|]. by constructor.
    + constructor; [exact IH|].
      destruct Hhd as [|y l' Hxy]; simpl.
      * constructor. by destruct (Htotal d x) as [H|H]; [congruence|].
      * destruct (leb d y); constructor; [|done].
        by destruct (Htotal d x) as [H|H]; [congruence|].
Qed.

Lemma sort_Sorted c key direction :
  Sorted (fun x y => sort_leb key direction x y = true) (sort c key direction).
Proof.
  unfold sort. induction c as [|d c IH]; simpl; [constructor|].
  apply insert_sorted_Sorted; [|done].
  intros x y. unfold sort_leb. destruct (direction =? 1); apply bson_leb_total.
Qed.

(** X26.  What [admin_list_projects] answers an admin is in descending
    order of ["created_at"] as BSON compares values, a project without the
    field counting as null, below every date: each project is dated no
    earlier than the next.  Among the projects [create_project] stores,
    which carry no ["created_at"], this says nothing. *)
Theorem admin_list_projects_sorted (db : Db) (service status : option string)
    (current_user : document) (items : list (gmap string value)) :
  admin_list_projects db service status current_user = Return items ->
  Sorted (fun p1 p2 : gmap string value =>
            bson_leb (p2 !! "created_at") (p1 !! "created_at") = true)
         items.
Proof.
  unfold admin_list_projects.
  destruct (is_admin current_user); simpl; [|done]. intros [= <-].
  eapply Sorted_fmap; [|apply (sort_Sorted _ "created_at" (-1))].
  intros x y. unfold sort_leb, stringify_id. simpl.
  by rewrite !lookup_insert_ne.
Qed.

(** X20.  [get_messages] lists, for every caller, exactly the stored
    messages whose ["project_id"] is the given string, each once, and in
    ascending order of ["created_at"]: each message is dated no later than
    the next. *)
Theorem get_messages_sorted (db : Db) (project_id : string) (reader : document) :
  get_messages db project_id reader
  ≡ₚ stringify_id
       <$> filter (fun m => body m !! "project_id" = Some (VStr project_id))
                  (message db)
  /\ Sorted (fun m1 m2 : gmap string value =>
               bson_leb (m1 !! "created_at") (m2 !! "created_at") = true)
            (get_messages db project_id reader).
Proof.
  unfold get_messages. split.
  - rewrite sort_Permutation. unfold find.
    erewrite list_filter_iff; [reflexivity|]. intros m. apply Matches_field.
  - eapply Sorted_fmap; [|apply (sort_Sorted _ "created_at" 1)].
    intros x y. unfold sort_leb, stringify_id. simpl.
    by rewrite !lookup_insert_ne.
Qed.

(** ** What the answers leave out *)

Section Answers.

Variable JWT_SECRET : string.
Variable hs256_sign : string -> string -> gmap string value -> string.
Variable bcrypt_hash : string -> string -> string.
Variable bcrypt_verify : string -> string -> result bool.

(** X21.  No answer of [signup], [login], [get_me] or [update_me] carries
    the stored password hash. *)
Theorem answers_hide_password_hash (db : Db) (now : datetime) (salt : string)
    (new_user_id : ObjectId_t) (new : SignupModel.t) (credentials : LoginModel.t)
    (update : ProfileUpdateModel.t) (current_user : document) :
  match (signup JWT_SECRET hs256_sign bcrypt_hash now salt new_user_id new db).2 with
  | Return r => signup_user r !! "password_hash" = None
  | Raise _ => True
  end
  /\ match login JWT_SECRET hs256_sign bcrypt_verify db now credentials with
     | Return r => login_user r !! "password_hash" = None
     | Raise _ => True
     end
  /\ get_me current_user !! "password_hash" = None
  /\ match (update_me update current_user db).2 with
     | Return r => r !! "password_hash" = None
     | Raise _ => True
     end.
Proof.
  split; [|split; [|split]].
  - unfold signup. run. destruct (find_one (user db) _); [done|].
    destruct (insert_one (user db) _ _) as [[us i]|]; [|done].
    simpl. by simplify_map_eq.
  - rewrite login_cases. destruct (find_one (user db) _); [|done].
    destruct (verify_password _ _ _) as [[]|]; [|done..].
    simpl. by simplify_map_eq.
  - unfold get_me, profile. by simplify_map_eq.
  - destruct (update_me_unfold update current_user db) as (us & _ & ->). simpl.
    destruct (find_one us _); [|done]. unfold profile. by simplify_map_eq.
Qed.

End Answers.

(** ** The further theorems on the sample store *)

(** A token whose ["exp"] is the string "605800" is accepted at 2 s, and
    its expiry is the number [int] reads in the string. *)
Lemma get_current_user_sound_witness :
  get_current_user "dev-secret" Sample.sign Sample.int_str Sample.db 2000
    Sample.string_exp_token
  = Return Sample.alice
  /\ (exists exp,
        int_ Sample.int_str (VStr "605800") = Return exp /\ 2000 < exp * 1000)
  /\ Sample.alice ∈ user Sample.db.
Proof.
  assert (H : get_current_user "dev-secret" Sample.sign Sample.int_str Sample.db 2000
                Sample.string_exp_token = Return Sample.alice)
    by (by vm_compute).
  destruct (get_current_user_sound "dev-secret" Sample.sign Sample.int_str
              Sample.db 2000 Sample.string_exp_token Sample.alice H)
    as (claims & sub & H1 & Hexp & _ & _ & Hin).
  split; [exact H|]. split; [|exact Hin].
  assert (Hc : claims = <["exp" := VStr "605800"]> {["sub" := VStr (str Sample.alice_id)]})
    by (unfold Sample.string_exp_token in H1; congruence).
  rewrite Hc, lookup_insert_eq in Hexp. exact Hexp.
Defined.

Lemma get_current_user_unknown_subject_witness :
  get_current_user "dev-secret" Sample.sign Sample.int_str Sample.db 2000
    (Sample.token_of Sample.dana_id)
  = Raise TokenInvalid.
Proof.
  apply (get_current_user_unknown_subject "dev-secret" Sample.sign Sample.int_str
           Sample.db 2000 (Sample.token_of Sample.dana_id)
           (<["exp" := VInt 604801]> {["sub" := VStr (str Sample.dana_id)]})).
  - by vm_compute.
  - intros sub oid Hsub Hoid. vm_compute in Hsub. injection Hsub as <-.
    vm_compute in Hoid. injection Hoid as <-.
    apply (bool_decide_unpack _). by vm_compute.
Defined.

Lemma signup_exactly_once_witness :
  signup "dev-secret" Sample.sign Sample.hash 2001 "pepper" Sample.p2_id
    (SignupModel.mk "D." "dana@example.com" "other" None)
    (signup "dev-secret" Sample.sign Sample.hash 2000 "salt" Sample.dana_id
       Sample.dana Sample.db).1
  = ((signup "dev-secret" Sample.sign Sample.hash 2000 "salt" Sample.dana_id
        Sample.dana Sample.db).1,
     Raise (HTTPException 400 "Email already registered")).
Proof.
  destruct (signup "dev-secret" Sample.sign Sample.hash 2000 "salt" Sample.dana_id
              Sample.dana Sample.db) as [db' [r|e]] eqn:H.
  - exact (signup_exactly_once "dev-secret" Sample.sign Sample.hash Sample.db db' r
             2000 "salt" Sample.dana_id Sample.dana 2001 "pepper" Sample.p2_id
             (SignupModel.mk "D." "dana@example.com" "other" None) H eq_refl).
  - vm_compute in H. discriminate H.
Defined.

(** A signup at 1000.9 s: the token is accepted at 605799.999 s. *)
Lemma signup_then_authenticate_witness :
  match signup "dev-secret" Sample.sign Sample.hash 1000900 "salt" Sample.dana_id
          Sample.dana Sample.db with
  | (db', Return r) =>
      exists u,
        get_current_user "dev-secret" Sample.sign Sample.int_str db' 605799999
          (signup_token r) = Return u
        /\ _id u = Sample.dana_id
  | (_, Raise _) => False
  end.
Proof.
  destruct (signup "dev-secret" Sample.sign Sample.hash 1000900 "salt" Sample.dana_id
              Sample.dana Sample.db) as [db' [r|e]] eqn:H.
  - destruct (signup_then_authenticate "dev-secret" Sample.sign Sample.int_str
                Sample.hash Sample.db db' r 1000900 605799999 "salt" Sample.dana_id
                Sample.dana H)
      as (u & Hu & Hid & _); [reflexivity|by vm_compute|].
    exists u. split; [exact Hu|exact Hid].
  - vm_compute in H. discriminate H.
Defined.

Lemma signup_then_login_witness :
  match signup "dev-secret" Sample.sign Sample.hash 2000 "salt" Sample.dana_id
          Sample.dana Sample.db with
  | (db', Return r) =>
      exists r',
        login "dev-secret" Sample.sign Sample.check db' 3000
          (LoginModel.mk "dana@example.com" "s3cret") = Return r'
        /\ login_user r' !! "is_admin" = Some (VBool false)
  | (_, Raise _) => False
  end.
Proof.
  destruct (signup "dev-secret" Sample.sign Sample.hash 2000 "salt" Sample.dana_id
              Sample.dana Sample.db) as [db' [r|e]] eqn:H.
  - destruct (signup_then_login "dev-secret" Sample.sign Sample.hash Sample.check
                Sample.db db' r 2000 3000 "salt" Sample.dana_id Sample.dana H)
      as (r' & Hl & _ & Ha); [by vm_compute|by vm_compute|].
    exists r'. split; [exact Hl|exact Ha].
  - vm_compute in H. discriminate H.
Defined.

(** A login at 1000.9 s: the token is accepted at 605799.999 s. *)
Lemma login_then_authenticate_witness :
  match login "dev-secret" Sample.sign Sample.check Sample.db 1000900
          (LoginModel.mk "alice@example.com" "alicehash") with
  | Return r =>
      exists u,
        get_current_user "dev-secret" Sample.sign Sample.int_str Sample.db 605799999
          (access_token r)
        = Return u
        /\ body u !! "email" = Some (VStr "alice@example.com")
  | Raise _ => False
  end.
Proof.
  destruct (login "dev-secret" Sample.sign Sample.check Sample.db 1000900
              (LoginModel.mk "alice@example.com" "alicehash")) as [r|e] eqn:H.
  - destruct (login_then_authenticate "dev-secret" Sample.sign Sample.int_str
                Sample.check Sample.db 1000900 605799999
                (LoginModel.mk "alice@example.com" "alicehash")
                r H) as (u & Hu & _ & He).
    + apply (bool_decide_unpack _). by vm_compute.
    + repeat (constructor; [reflexivity|]). constructor.
    + by vm_compute.
    + exists u. split; [exact Hu|exact He].
  - vm_compute in H. discriminate H.
Defined.

Lemma serve_all_no_new_admin_witness :
  Forall (fun u => is_admin u = false)
         (user (serve_all "dev-secret" Sample.sign Sample.int_str Sample.hash Sample.requests
                  Sample.customers)).
Proof.
  apply serve_all_no_new_admin.
  apply (bool_decide_unpack _). by vm_compute.
Defined.

Lemma serve_all_status_needs_admin_witness :
  (fun p => (_id p, body p !! "status", body p !! "notes")) <$> project Sample.customers
  `prefix_of`
  (fun p => (_id p, body p !! "status", body p !! "notes"))
    <$> project (serve_all "dev-secret" Sample.sign Sample.int_str Sample.hash Sample.requests
                   Sample.customers).
Proof.
  apply serve_all_status_needs_admin.
  apply (bool_decide_unpack _). by vm_compute.
Defined.

(** A project with one file, through the six requests, one of them an
    upload by its owner: the file it had is still its first. *)
Lemma serve_all_files_append_only_witness :
  exists p' fs',
    project (serve_all "dev-secret" Sample.sign Sample.int_str Sample.hash
               Sample.requests Sample.customers_with_file) !! 0%nat = Some p'
    /\ _id p' = Sample.p1_id
    /\ files_of p' = Some fs'
    /\ [Sample.brief] `prefix_of` fs'.
Proof.
  apply (serve_all_files_append_only "dev-secret" Sample.sign Sample.int_str
           Sample.hash Sample.requests Sample.customers_with_file 0
           (Doc Sample.p1_id (<["files" := VArray [Sample.brief]]> (body Sample.p1)))
           [Sample.brief]); by vm_compute.
Defined.

Lemma serve_all_projects_wf_witness :
  projects_wf (serve_all "dev-secret" Sample.sign Sample.int_str Sample.hash Sample.requests
                 Sample.customers).
Proof.
  apply serve_all_projects_wf. split.
  - apply (bool_decide_unpack _). by vm_compute.
  - apply Forall_singleton. exists []. reflexivity.
Defined.

Lemma serve_all_emails_unique_witness :
  NoDup (omap (fun u => body u !! "email")
              (user (serve_all "dev-secret" Sample.sign Sample.int_str Sample.hash Sample.requests
                       Sample.customers))).
Proof.
  apply serve_all_emails_unique.
  apply (bool_decide_unpack _). by vm_compute.
Defined.

Lemma create_project_then_get_messages_witness :
  match create_project 1700000000 Sample.p2_id Sample.m1_id Sample.new_project
          Sample.alice Sample.db with
  | (db', Return r) =>
      exists msg,
        r !! "_id" = Some (VStr (str Sample.p2_id))
        /\ get_messages db' (str Sample.p2_id) Sample.bob = [msg]
        /\ msg !! "content" = Some (VStr "New project submitted")
  | (_, Raise _) => False
  end.
Proof.
  destruct (create_project 1700000000 Sample.p2_id Sample.m1_id Sample.new_project
              Sample.alice Sample.db) as [db' [r|e]] eqn:H.
  - destruct (create_project_then_get_messages Sample.db db' r 1700000000
                Sample.p2_id Sample.m1_id Sample.new_project Sample.alice
                Sample.bob H) as (msg & Hr & Hg & _ & Hc & _).
    + apply (bool_decide_unpack _). by vm_compute.
    + exists msg. split; [exact Hr|]. split; [exact Hg|exact Hc].
  - vm_compute in H. discriminate H.
Defined.

Lemma create_project_then_list_my_projects_witness :
  match create_project 1700000000 Sample.p2_id Sample.m1_id Sample.new_project
          Sample.alice Sample.db with
  | (db', Return r) =>
      (exists item,
         list_my_projects db' Sample.alice
         = list_my_projects Sample.db Sample.alice ++ [item]
         /\ item !! "status" = Some (VStr "Pending"))
      /\ list_my_projects db' Sample.bob = list_my_projects Sample.db Sample.bob
  | (_, Raise _) => False
  end.
Proof.
  destruct (create_project 1700000000 Sample.p2_id Sample.m1_id Sample.new_project
              Sample.alice Sample.db) as [db' [r|e]] eqn:H.
  - destruct (create_project_then_list_my_projects Sample.db db' r 1700000000
                Sample.p2_id Sample.m1_id Sample.new_project Sample.alice H)
      as (item & Hl & _ & Hs & _ & _ & Ho).
    split.
    + exists item. split; [exact Hl|exact Hs].
    + apply Ho. vm_compute. discriminate.
  - vm_compute in H. discriminate H.
Defined.

(** A string of 24 characters with whitespace in it is no malformed id:
    [ObjectId] reads the 11 bytes before the two spaces, no project has
    that id, and the handlers go on.  An admin's status update and upload
    succeed and write nothing, and [send_message] answers [NotFound]. *)
Example project_id_with_whitespace :
  ObjectId "65b0000000000000000000  " = Return (Oid "65b0000000000000000000")
  /\ admin_update_status "65b0000000000000000000  "
       (StatusUpdateModel.mk "Done" None) Sample.admin Sample.db
     = (Sample.db, Return {["message" := VStr "Status updated"]})
  /\ upload_file 1700000000000 "65b0000000000000000000  " Sample.logo Sample.admin
       Sample.db
     = (Sample.db,
        Return (MkUploadResponse "File uploaded"
                  (file_meta_of Sample.logo 1700000000000)))
  /\ send_message 1700000000000 Sample.m1_id "65b0000000000000000000  "
       Sample.hello Sample.admin Sample.db
     = (Sample.db, Raise NotFound).
Proof. repeat split; by vm_compute. Qed.

Lemma malformed_project_id_witness :
  upload_file 1700000000 "nonexistent_id" Sample.logo Sample.admin Sample.db
  = (Sample.db, Raise InvalidId)
  /\ send_message 1700000000 Sample.m1_id "nonexistent_id" Sample.hello Sample.alice
       Sample.db
     = (Sample.db, Raise InvalidId)
  /\ admin_update_status "nonexistent_id" (StatusUpdateModel.mk "Done" None)
       Sample.admin Sample.db
     = (Sample.db, Raise InvalidId).
Proof.
  assert (Hid : ObjectId "nonexistent_id" = Raise InvalidId) by reflexivity.
  split; [|split].
  - exact (proj1 (malformed_project_id Sample.db 1700000000 "nonexistent_id"
                    Sample.logo Sample.m1_id Sample.hello
                    (StatusUpdateModel.mk "Done" None) Sample.admin Hid)).
  - exact (proj1 (proj2 (malformed_project_id Sample.db 1700000000 "nonexistent_id"
                    Sample.logo Sample.m1_id Sample.hello
                    (StatusUpdateModel.mk "Done" None) Sample.alice Hid))).
  - pose proof (proj2 (proj2 (malformed_project_id Sample.db 1700000000
                    "nonexistent_id" Sample.logo Sample.m1_id Sample.hello
                    (StatusUpdateModel.mk "Done" None) Sample.admin Hid))) as H.
    assert (Ha : is_admin Sample.admin = true) by (by vm_compute).
    rewrite Ha in H. exact H.
Defined.

(** A message sent to an upper-case spelling of a project's id is stored,
    and the listing under the id as [str] prints it does not show it. *)
Lemma send_message_then_get_messages_witness :
  match send_message 1700000000 Sample.m1_id "65B000000000000000000001"
          Sample.hello Sample.bob Sample.db with
  | (db', Return r) =>
      (exists msg,
         get_messages db' "65B000000000000000000001" Sample.alice
         ≡ₚ get_messages Sample.db "65B000000000000000000001" Sample.alice ++ [msg]
         /\ msg !! "content" = Some (VStr "Hello"))
      /\ get_messages db' "65b000000000000000000001" Sample.alice
         = get_messages Sample.db "65b000000000000000000001" Sample.alice
  | (_, Raise _) => False
  end.
Proof.
  destruct (send_message 1700000000 Sample.m1_id "65B000000000000000000001"
              Sample.hello Sample.bob Sample.db) as [db' [r|e]] eqn:H.
  - destruct (send_message_then_get_messages Sample.db db' r 1700000000
                Sample.m1_id "65B000000000000000000001" Sample.hello Sample.bob
                Sample.alice H) as [(msg & Hp & Hc & _) Ho].
    split.
    + exists msg. split; [exact Hp|exact Hc].
    + apply Ho. discriminate.
  - vm_compute in H. discriminate H.
Defined.

Lemma get_current_user_errors_witness :
  HTTPException 401 "Could not validate credentials" = TokenExpired
  \/ HTTPException 401 "Could not validate credentials" = TokenInvalid.
Proof.
  apply (get_current_user_errors "dev-secret" Sample.sign Sample.int_str Sample.db 2000
           (JWS "none" {["sub" := VStr (str Sample.admin_id)]} "")).
  by vm_compute.
Defined.

Lemma send_message_sender_role_witness :
  exists msg,
    send_message 1700000000 Sample.m1_id "65b000000000000000000001" Sample.hello
      Sample.bob Sample.db
    = (MkDb (user Sample.db) (project Sample.db) (message Sample.db ++ [msg]),
       Return {["message" := VStr "Sent"]})
    /\ body msg !! "sender_role" = Some (VStr "customer").
Proof.
  destruct (send_message_sender_role Sample.db 1700000000 Sample.m1_id
              "65b000000000000000000001" Sample.p1_id Sample.hello Sample.bob
              Sample.p1) as (msg & H & Hr).
  - reflexivity.
  - by vm_compute.
  - apply (bool_decide_unpack _). by vm_compute.
  - exists msg. split; [exact H|].
    assert (Ha : is_admin Sample.bob = false) by (by vm_compute).
    rewrite Ha in Hr. exact Hr.
Defined.

Lemma upload_file_unknown_project_not_admin_witness :
  upload_file 1700000000 "65b000000000000000000002" Sample.logo Sample.bob Sample.db
  = (Sample.db, Raise NotFound).
Proof.
  apply (upload_file_unknown_project_not_admin _ _ _ Sample.p2_id).
  - reflexivity.
  - by vm_compute.
  - apply (bool_decide_unpack _). by vm_compute.
Defined.

(** Two projects with a creation date, the older one stored first: the
    newer one is listed first. *)
Lemma admin_list_projects_sorted_witness :
  exists items,
    admin_list_projects Sample.dated None None Sample.admin = Return items
    /\ (fun p : gmap string value => p !! "created_at") <$> items
       = [Some (VDate 200000); Some (VDate 100000)]
    /\ Sorted (fun p1 p2 : gmap string value =>
                 bson_leb (p2 !! "created_at") (p1 !! "created_at") = true)
              items.
Proof.
  destruct (admin_list_projects Sample.dated None None Sample.admin)
    as [items|e] eqn:H.
  - exists items. split; [reflexivity|]. split.
    + vm_compute in H. injection H as <-. by vm_compute.
    + exact (admin_list_projects_sorted Sample.dated None None Sample.admin items H).
  - vm_compute in H. discriminate H.
Defined.

Lemma create_project_not_atomic_witness :
  exists proj,
    create_project 1700000000 Sample.p2_id Sample.m1_id Sample.new_project
      Sample.alice (MkDb (user Sample.db) (project Sample.db) [Doc Sample.m1_id ∅])
    = (MkDb (user Sample.db) (project Sample.db ++ [proj]) [Doc Sample.m1_id ∅],
       Raise DuplicateKeyError).
Proof.
  apply (create_project_not_atomic
           (MkDb (user Sample.db) (project Sample.db) [Doc Sample.m1_id ∅])).
  - apply (bool_decide_unpack _). by vm_compute.
  - apply (bool_decide_unpack _). by vm_compute.
Defined.
